(** * deepdoctection: datasets/base.py

    A shallow embedding of [DatasetBase] and [MergeDataset] (merging,
    buffering and splitting of datasets) together with the properties of
    the merge/buffer/split subsystem. *)

From Stdlib Require Import QArith.
From stdpp Require Import gmap strings list fin_maps.

Local Open Scope Z_scope.
Local Open Scope string_scope.
Local Open Scope list_scope.

(** ** Python values, exceptions and results *)

(** [kwargs: Union[str, int]] *)
Inductive Value :=
| VStr (s : string)
| VInt (z : Z).

Inductive Exception :=
| AssertionError (msg : string)
| KeyError (key : Value)
| TypeError
| ValueError
| IndexError.

Inductive result (A : Type) :=
| Ok (a : A)
| Err (e : Exception).
Arguments Ok {A} a.
Arguments Err {A} e.

Definition rbind {A B} (r : result A) (k : A -> result B) : result B :=
  match r with
  | Ok a => k a
  | Err e => Err e
  end.

#[global] Instance result_bind : MBind result := fun _ _ k r => rbind r k.
#[global] Instance result_ret : MRet result := fun _ a => Ok a.

(** A [for] loop appending [f x] to a list; the first exception ends it. *)
Fixpoint for_append {A B} (f : A -> result B) (xs : list A) : result (list B) :=
  match xs with
  | [] => Ok []
  | x :: xs' => y ← f x; ys ← for_append f xs'; Ok (y :: ys)
  end.

(** [**kwargs] as a dictionary with string keys. *)
Abbreviation Kwargs := (gmap string Value).

Section base.

(** [Image] is the datapoint type; it is never inspected. *)
Context {Image : Type}.

(** Python's built-in [int] applied to a [str]: the integer it denotes, or
    [None] where [int] raises [ValueError]. *)
Variable int_of_str : string -> option Z.

(** [int(x)] for [x] the outcome of [kwargs.get(key)]. *)
Definition int (x : option Value) : result Z :=
  match x with
  | None => Err TypeError
  | Some (VInt z) => Ok z
  | Some (VStr s) =>
      match int_of_str s with
      | Some z => Ok z
      | None => Err ValueError
      end
  end.

(** ** Dataflows *)

(** Modelled from the spec: the classes [ConcatData] and
    [CustomDataFromList] of the [dataflow] package and the streams handed
    in by the datasets.  A stream is finite and is identified by the
    datapoints it yields; [ConcatData] is the sequential concatenation of
    its parts and [CustomDataFromList] a stream over a list, truncated to
    at most [max_datapoints] items and unbounded if that is absent. *)
Inductive DataFlow :=
| DataFromList (lst : list Image)
| ConcatData (df_lists : list DataFlow)
| CustomDataFromList (lst : list Image) (max_datapoints : option Z).

Fixpoint yields (df : DataFlow) : list Image :=
  match df with
  | DataFromList lst => lst
  | ConcatData df_lists =>
      (fix go (dfs : list DataFlow) : list Image :=
         match dfs with
         | [] => []
         | d :: dfs' => yields d ++ go dfs'
         end) df_lists
  | CustomDataFromList lst None => lst
  | CustomDataFromList lst (Some m) => take (Z.to_nat m) lst
  end.

(** ** Categories *)

(** Modelled from the spec: the class [DatasetCategories] of [info.py].
    A registry maps a category name to its set of permitted values and a
    category name to its sub-categories, each with a set of permitted
    values. *)
Record DatasetCategories := {
  cat_values : gmap string (gset string);
  sub_categories : gmap string (gmap string (gset string));
}.

Definition defines (r : DatasetCategories) (c : string) : Prop :=
  is_Some (cat_values r !! c).

Definition values (r : DatasetCategories) (c : string) : gset string :=
  default ∅ (cat_values r !! c).

Definition subs (r : DatasetCategories) (c : string) : gmap string (gset string) :=
  default ∅ (sub_categories r !! c).

Definition sub_names (r : DatasetCategories) (c : string) : gset string :=
  dom (subs r c).

Definition empty_categories : DatasetCategories :=
  {| cat_values := ∅; sub_categories := ∅ |}.

Definition union_values (x y : gset string) : option (gset string) :=
  Some (x ∪ y).

(** The sub-categories of [c] when two registries are merged: those of the
    registry defining [c] if only one does, and otherwise the names both
    carry, each with the values of both. *)
Definition merge_subs (a b : DatasetCategories) (c : string)
  : gmap string (gset string) :=
  match cat_values a !! c, cat_values b !! c with
  | Some _, Some _ => intersection_with union_values (subs a c) (subs b c)
  | Some _, None => subs a c
  | None, _ => subs b c
  end.

Definition merge_two (a b : DatasetCategories) : DatasetCategories :=
  let merged := union_with union_values (cat_values a) (cat_values b) in
  {| cat_values := merged;
     sub_categories := map_imap (fun c _ => Some (merge_subs a b c)) merged |}.

(** Modelled from the spec: the function [get_merged_categories] of
    [info.py].  Categories are the union of the names, the values of a
    category the union of its values, and a sub-category is kept under a
    category when every registry defining the category carries it; no
    registries give the empty registry. *)
Definition get_merged_categories (categories : list DatasetCategories)
  : DatasetCategories :=
  foldr merge_two empty_categories categories.

(** ** Dataset descriptors and dataflow builders *)

(** Modelled from the spec: the class [DatasetInfo] of [info.py], a
    descriptor with a name, an optional source URL and a mapping from split
    names to split identifiers. *)
Record DatasetInfo := {
  name : string;
  url : string;
  info_splits : gmap string string;
}.

(** Modelled from the spec: the class [DataFlowBaseBuilder] of
    [dataflow_builder.py], the capability [build(options) -> Stream] with
    a [categories] and a [splits] field.  [build] may raise. *)
Record DataFlowBaseBuilder := {
  location : string;
  build : Kwargs -> result DataFlow;
  categories : option DatasetCategories;
  splits : option (gmap string string);
}.

Definition set_categories (b : DataFlowBaseBuilder) (c : DatasetCategories)
  : DataFlowBaseBuilder :=
  {| location := location b; build := build b;
     categories := Some c; splits := splits b |}.

Definition set_splits (b : DataFlowBaseBuilder) (s : gmap string string)
  : DataFlowBaseBuilder :=
  {| location := location b; build := build b;
     categories := categories b; splits := Some s |}.

(** A constructed dataset, seen through its two properties. *)
Record DatasetBase := {
  dataset_info : DatasetInfo;
  dataflow : DataFlowBaseBuilder;
}.

(** [DatasetBase.__init__], given what [_info()], [_builder()] and
    [_categories()] return.  The notice printed for a built-in dataset
    that is not found locally only writes to the standard output and is
    left out. *)
Definition DatasetBase_init (_info : option DatasetInfo)
    (_builder : DataFlowBaseBuilder) (_categories : DatasetCategories)
  : result DatasetBase :=
  match _info with
  | None =>
      Err (AssertionError "Dataset requires at least a name defined in DatasetInfo")
  | Some info =>
      Ok {| dataset_info := info;
            dataflow := set_splits (set_categories _builder _categories)
                          (info_splits info) |}
  end.

(** ** MergeDataset *)

Record MergeDataset := {
  datasets : list DatasetBase;
  dataflows : option (list DataFlow);
  datapoint_list : option (list Image);
  _dataset_info : DatasetInfo;
  _dataflow_builder : DataFlowBaseBuilder;
}.

Definition MergeDataset_categories (datasets : list DatasetBase)
  : DatasetCategories :=
  get_merged_categories (omap (fun dataset => categories (dataflow dataset)) datasets).

Definition MergeDataset_info : option DatasetInfo :=
  Some {| name := "merge"; url := ""; info_splits := ∅ |}.

(** [MergeDataFlow.build]; the two calls of [logger.info] are left out. *)
Definition MergeDataFlow_build (dataflow_builders : list DataFlowBaseBuilder)
    (dataflows : option (list DataFlow)) (kwargs : Kwargs) : result DataFlow :=
  match dataflows with
  | Some dfs => Ok (ConcatData dfs)
  | None =>
      df_list ← for_append (fun dataflow_builder => build dataflow_builder kwargs)
                  dataflow_builders;
      Ok (ConcatData df_list)
  end.

Definition MergeDataFlow (dataflow_builders : list DataFlowBaseBuilder)
    (dataflows : option (list DataFlow)) : DataFlowBaseBuilder :=
  {| location := "";
     build := MergeDataFlow_build dataflow_builders dataflows;
     categories := None; splits := None |}.

Definition MergeDataset_builder (datasets : list DatasetBase)
    (dataflows : option (list DataFlow)) : DataFlowBaseBuilder :=
  let builder := MergeDataFlow (map dataflow datasets) None in
  match dataflows with
  | Some dfs => MergeDataFlow (map dataflow datasets) (Some dfs)
  | None => builder
  end.

(** [MergeDataset.__init__] *)
Definition MergeDataset_init (datasets : list DatasetBase) : result MergeDataset :=
  base ← DatasetBase_init MergeDataset_info
           (MergeDataset_builder datasets None)
           (MergeDataset_categories datasets);
  Ok {| datasets := datasets; dataflows := None; datapoint_list := None;
        _dataset_info := dataset_info base;
        _dataflow_builder := dataflow base |}.

(** What the class of a dataset gives to [DatasetBase.__init__]: the
    results of its [_info()], [_builder()] and [_categories()]. *)
Record DatasetCard := {
  card_info : option DatasetInfo;
  card_builder : DataFlowBaseBuilder;
  card_categories : DatasetCategories;
}.

(** The datasets are constructed, one after the other, before they are
    passed on: [dataset_1 = get_dataset("dataset_1")], [dataset_2 = ...]. *)
Definition construct_datasets (cards : list DatasetCard) : result (list DatasetBase) :=
  for_append
    (fun card => DatasetBase_init (card_info card) (card_builder card)
                   (card_categories card))
    cards.

(** [union_dataset = MergeDataset(dataset_1, dataset_2)] on datasets
    constructed for it, as in the example of the docstring. *)
Definition construct_merge (cards : list DatasetCard) : result MergeDataset :=
  datasets ← construct_datasets cards;
  MergeDataset_init datasets.

(** A method of [MergeDataset] returns its outcome and the instance as
    the call leaves it, also when it raises. *)
Definition explicit_dataflows (self : MergeDataset) (dfs : list DataFlow)
  : result unit * MergeDataset :=
  let self :=
    {| datasets := datasets self; dataflows := Some dfs;
       datapoint_list := datapoint_list self;
       _dataset_info := _dataset_info self;
       _dataflow_builder := _dataflow_builder self |} in
  if (length (datasets self) <=? length dfs)%nat then
    let builder := MergeDataset_builder (datasets self) (dataflows self) in
    (Ok tt,
     {| datasets := datasets self; dataflows := dataflows self;
        datapoint_list := datapoint_list self;
        _dataset_info := _dataset_info self;
        _dataflow_builder :=
          set_categories builder (MergeDataset_categories (datasets self)) |})
  else (Err (AssertionError ""), self).

(** ** Buffering *)

(** Modelled from the spec: [CacheData(df, shuffle=True).get_cache()] of
    the [dataflow] package drains the stream, collects its datapoints in
    order and applies a random permutation.  The random source is the
    list [draws]: every datapoint is put at the position its draw selects
    among the datapoints already placed. *)
Fixpoint shuffle (draws : list nat) (lst : list Image) : list Image :=
  match lst with
  | [] => []
  | dp :: lst' =>
      let placed := shuffle (tail draws) lst' in
      let k := (hd 0%nat draws mod S (length placed))%nat in
      take k placed ++ dp :: drop k placed
  end.

Definition CacheData_get_cache (draws : list nat) (df : DataFlow) : list Image :=
  shuffle draws (yields df).

(** The random sources for [n] datapoints: the draw for a datapoint
    ranges over the positions among the datapoints placed before it, so
    there are [n!] of them; a uniform random source picks each of them
    with the same probability. *)
Fixpoint all_draws (n : nat) : list (list nat) :=
  match n with
  | O => [[]]
  | S n' => ds ← all_draws n'; (fun d => d :: ds) <$> seq 0 (S n')
  end.

Definition buffer_datasets (draws : list nat) (self : MergeDataset)
    (kwargs : Kwargs) : result unit * MergeDataset :=
  match build (_dataflow_builder self) kwargs with
  | Err e => (Err e, self)
  | Ok df =>
      (Ok tt,
       {| datasets := datasets self; dataflows := dataflows self;
          datapoint_list := Some (CacheData_get_cache draws df);
          _dataset_info := _dataset_info self;
          _dataflow_builder := _dataflow_builder self |})
  end.

(** ** Splitting *)

(** [lst[i]] *)
Definition getitem {A} (lst : list A) (i : nat) : result A :=
  match lst !! i with
  | Some x => Ok x
  | None => Err IndexError
  end.

(** [[datapoint_list[i] for i in range(number_datapoints) if indices[i] == v]] *)
Definition select (datapoint_list : list Image) (indices : list Z) (v : Z)
  : result (list Image) :=
  chosen ← for_append
              (fun i => d ← getitem indices i;
                        if (d =? v)%Z then dp ← getitem datapoint_list i; Ok [dp]
                        else Ok [])
              (seq 0 (length datapoint_list));
  Ok (concat chosen).

Definition enumerate {A} (lst : list A) : list (nat * A) :=
  imap (fun id dp => (id, dp)) lst.

(** [id % 2] as a condition *)
Definition odd_id {A} (p : nat * A) : bool := negb (p.1 mod 2 =? 0)%nat.

(** A sample of [np.random.binomial(1, ratio, n)]: [n] draws, each 0 or 1. *)
Definition binomial_sample (n : nat) (indices : list Z) : Prop :=
  length indices = n ∧ Forall (fun d => d = 0 ∨ d = 1) indices.

(** Lines 259 to 267 of [split_datasets]: the train, val and test lists.
    [indices] is the sample that [np.random.binomial(1, ratio,
    number_datapoints)] returns; numpy raises [ValueError] for a [ratio]
    outside of [0, 1]. *)
Definition split_lists (indices : list Z) (datapoint_list : list Image)
    (ratio : Q) (add_test : bool)
  : result (list Image * list Image * option (list Image)) :=
  if negb (Qle_bool 0 ratio && Qle_bool ratio 1) then Err ValueError else
  train_dataset ← select datapoint_list indices 0;
  val_dataset ← select datapoint_list indices 1;
  if add_test then
    let test_dataset := map snd (List.filter odd_id (enumerate val_dataset)) in
    let val_dataset :=
      map snd (List.filter (fun p => negb (odd_id p)) (enumerate val_dataset)) in
    Ok (train_dataset, val_dataset, Some test_dataset)
  else Ok (train_dataset, val_dataset, None).

(** [SplitDataFlow.__init__] *)
Definition SplitDataFlow_split_cache (train val : list Image)
    (test : option (list Image)) : gmap string (list Image) :=
  match test with
  | None => <["train" := train]> (<["val" := val]> ∅)
  | Some test => <["train" := train]> (<["val" := val]> (<["test" := test]> ∅))
  end.

(** [split_cache[split]] *)
Definition split_cache_getitem (split_cache : gmap string (list Image))
    (split : Value) : result (list Image) :=
  match split with
  | VStr s =>
      match split_cache !! s with
      | Some lst => Ok lst
      | None => Err (KeyError split)
      end
  | VInt _ => Err (KeyError split)
  end.

(** [SplitDataFlow.build] *)
Definition SplitDataFlow_build (split_cache : gmap string (list Image))
    (kwargs : Kwargs) : result DataFlow :=
  let split := default (VStr "train") (kwargs !! "split") in
  max_datapoints ← int (kwargs !! "max_datapoints");
  lst ← split_cache_getitem split_cache split;
  Ok (CustomDataFromList lst (Some max_datapoints)).

Definition SplitDataFlow (train val : list Image) (test : option (list Image))
  : DataFlowBaseBuilder :=
  {| location := "";
     build := SplitDataFlow_build (SplitDataFlow_split_cache train val test);
     categories := None; splits := None |}.

(** [split_datasets]; the log of the split sizes is left out. *)
Definition split_datasets (indices : list Z) (self : MergeDataset)
    (ratio : Q) (add_test : bool) : result unit * MergeDataset :=
  match datapoint_list self with
  | None =>
      (Err (AssertionError "datasets need to be buffered before splitting"), self)
  | Some datapoint_list =>
      match split_lists indices datapoint_list ratio add_test with
      | Err e => (Err e, self)
      | Ok (train_dataset, val_dataset, test_dataset) =>
          (Ok tt,
           {| datasets := datasets self; dataflows := dataflows self;
              datapoint_list := Some datapoint_list;
              _dataset_info := _dataset_info self;
              _dataflow_builder :=
                set_categories (SplitDataFlow train_dataset val_dataset test_dataset)
                  (MergeDataset_categories (datasets self)) |})
      end
  end.

(** ** Auxiliary functions for the statements *)

(** The datapoints whose draw is [v], by recursion on both lists. *)
Fixpoint pick (v : Z) (datapoint_list : list Image) (indices : list Z)
  : list Image :=
  match datapoint_list, indices with
  | dp :: dps, d :: ds => if (d =? v)%Z then dp :: pick v dps ds else pick v dps ds
  | _, _ => []
  end.

(** The positions whose draw is [v], counted from [j]. *)
Fixpoint positions (v : Z) (j : nat) (indices : list Z) : list nat :=
  match indices with
  | [] => []
  | d :: ds => if (d =? v)%Z then j :: positions v (S j) ds else positions v (S j) ds
  end.

(** The items at even and at odd positions of a list. *)
Fixpoint alternate {A} (lst : list A) : list A * list A :=
  match lst with
  | [] => ([], [])
  | x :: lst' => (x :: (alternate lst').2, (alternate lst').1)
  end.

(** The expectation of [f] over a sample of [n] independent draws, each 1
    with probability [ratio] and 0 otherwise. *)
Fixpoint expectation (ratio : Q) (n : nat) (f : list Z -> Q) : Q :=
  match n with
  | O => f []
  | S n' =>
      ((1 - ratio) * expectation ratio n' (fun ds => f (0%Z :: ds))
       + ratio * expectation ratio n' (fun ds => f (1%Z :: ds)))%Q
  end.

Definition size_Q {A} (lst : list A) : Q := inject_Z (Z.of_nat (length lst)).

(** The size of the val split that [split_datasets], without a test
    split, makes from the sample [indices]. *)
Definition val_size (datapoint_list : list Image) (ratio : Q) (indices : list Z)
  : Q :=
  match split_lists indices datapoint_list ratio false with
  | Ok (_, val_dataset, _) => size_Q val_dataset
  | Err _ => 0%Q
  end.

(** The size of the train split that [split_datasets] makes from the
    sample [indices]. *)
Definition train_size (datapoint_list : list Image) (ratio : Q) (indices : list Z)
  : Q :=
  match split_lists indices datapoint_list ratio false with
  | Ok (train_dataset, _, _) => size_Q train_dataset
  | Err _ => 0%Q
  end.

(** The properties [dataset_info] and [dataflow] of [DatasetBase], read on
    a [MergeDataset]: as a dataset it can be merged again. *)
Definition MergeDataset_as_dataset (self : MergeDataset) : DatasetBase :=
  {| dataset_info := _dataset_info self; dataflow := _dataflow_builder self |}.

(** A call of one of the three public methods of [MergeDataset], with the
    random source it consumes. *)
Inductive Call :=
| call_explicit_dataflows (dfs : list DataFlow)
| call_buffer_datasets (draws : list nat) (kwargs : Kwargs)
| call_split_datasets (indices : list Z) (ratio : Q) (add_test : bool).

Definition run_call (self : MergeDataset) (c : Call) : result unit * MergeDataset :=
  match c with
  | call_explicit_dataflows dfs => explicit_dataflows self dfs
  | call_buffer_datasets draws kwargs => buffer_datasets draws self kwargs
  | call_split_datasets indices ratio add_test =>
      split_datasets indices self ratio add_test
  end.

(** The instance after a sequence of calls; a caller may catch the
    exception of a call and go on. *)
Definition run_calls (self : MergeDataset) (cs : list Call) : MergeDataset :=
  foldl (fun s c => (run_call s c).2) self cs.

End base.

Arguments DataFlow : clear implicits.
Arguments DataFlowBaseBuilder : clear implicits.
Arguments DatasetBase : clear implicits.
Arguments MergeDataset : clear implicits.
Arguments Call : clear implicits.
Arguments DatasetCard : clear implicits.


(** ** Concrete instances

    Datapoints are numbers, and [int] rejects every string. *)

Definition no_int_of_str (s : string) : option Z := None.

Definition layout_categories : DatasetCategories :=
  {| cat_values := {[ "table" := {[ "1" ]}; "text" := {[ "2" ]} ]};
     sub_categories :=
       {[ "table" := {[ "kind" := {[ "a" ]}; "span" := {[ "row" ]} ]} ]} |}.

Definition table_categories : DatasetCategories :=
  {| cat_values := {[ "table" := {[ "3" ]} ]};
     sub_categories := {[ "table" := {[ "kind" := {[ "b" ]} ]} ]} |}.

Definition list_builder (items : list nat)
    (cats : option DatasetCategories) : DataFlowBaseBuilder nat :=
  {| location := "data"; build := fun _ => Ok (DataFromList items);
     categories := cats; splits := None |}.

Definition list_dataset (nm : string) (items : list nat)
    (cats : option DatasetCategories) : DatasetBase nat :=
  {| dataset_info := {| name := nm; url := ""; info_splits := ∅ |};
     dataflow := list_builder items cats |}.

Definition dataset_1 := list_dataset "dataset_1" [1; 2]%nat (Some layout_categories).
Definition dataset_2 := list_dataset "dataset_2" [3]%nat (Some table_categories).
Definition dataset_3 := list_dataset "dataset_3" [4; 5]%nat None.

(** A dataset whose builder raises. *)
Definition broken_dataset : DatasetBase nat :=
  {| dataset_info := {| name := "broken"; url := ""; info_splits := ∅ |};
     dataflow := {| location := "data"; build := fun _ => Err ValueError;
                    categories := None; splits := None |} |}.

(** The cards of [dataset_1] and [dataset_2], and one without [DatasetInfo]. *)
Definition card_1 : DatasetCard nat :=
  {| card_info := Some {| name := "dataset_1"; url := ""; info_splits := ∅ |};
     card_builder := list_builder [1; 2]%nat None;
     card_categories := layout_categories |}.

Definition card_2 : DatasetCard nat :=
  {| card_info := Some {| name := "dataset_2"; url := ""; info_splits := ∅ |};
     card_builder := list_builder [3]%nat None;
     card_categories := table_categories |}.

Definition card_without_info : DatasetCard nat :=
  {| card_info := None;
     card_builder := list_builder [4]%nat None;
     card_categories := table_categories |}.

(** [MergeDataset(dataset_1, dataset_2)] *)
Definition union_dataset : MergeDataset nat :=
  {| datasets := [dataset_1; dataset_2]; dataflows := None;
     datapoint_list := None;
     _dataset_info := {| name := "merge"; url := ""; info_splits := ∅ |};
     _dataflow_builder :=
       set_splits (set_categories (MergeDataset_builder [dataset_1; dataset_2] None)
                     (MergeDataset_categories [dataset_1; dataset_2])) ∅ |}.

(** [union_dataset] with an empty buffer *)
Definition empty_buffered_dataset : MergeDataset nat :=
  {| datasets := datasets union_dataset; dataflows := None;
     datapoint_list := Some [];
     _dataset_info := _dataset_info union_dataset;
     _dataflow_builder := _dataflow_builder union_dataset |}.

(** [union_dataset] with the buffer [[3; 1; 2]] *)
Definition buffered_dataset : MergeDataset nat :=
  {| datasets := datasets union_dataset; dataflows := None;
     datapoint_list := Some [3; 1; 2]%nat;
     _dataset_info := _dataset_info union_dataset;
     _dataflow_builder := _dataflow_builder union_dataset |}.

Section properties.

Context {Image : Type}.

(** ** Properties of the dataflow builders *)

Lemma yields_ConcatData (dfs : list (DataFlow Image)) :
  yields (ConcatData dfs) = concat (map yields dfs).
Proof.
  induction dfs as [|d dfs IH]; [reflexivity|].
  simpl in *. by rewrite IH.
Qed.

Lemma for_append_Forall2 {A B} (f : A -> result B) (xs : list A) (ys : list B) :
  for_append f xs = Ok ys ↔ Forall2 (fun x y => f x = Ok y) xs ys.
Proof.
  revert ys. induction xs as [|x xs IH]; intros ys; simpl.
  - split.
    + intros [= <-]. constructor.
    + intros H. by inversion H.
  - destruct (f x) as [y|e] eqn:Hfx; simpl.
    + destruct (for_append f xs) as [ys'|e] eqn:Hrest; simpl.
      * split.
        -- intros [= <-]. constructor; [done|]. by apply IH.
        -- intros H. inversion H as [|? y' ? ys'' Hy Hys]; subst.
           apply IH in Hys. congruence.
      * split; [done|].
        intros H. inversion H as [|? y' ? ys'' Hy Hys]; subst.
        apply IH in Hys. congruence.
    + split; [done|].
      intros H. inversion H; subst. congruence.
Qed.

Lemma for_append_map {A B C} (f : B -> result C) (g : A -> B) (xs : list A) :
  for_append f (map g xs) = for_append (fun x => f (g x)) xs.
Proof.
  induction xs as [|x xs IH]; [reflexivity|].
  simpl. by rewrite IH.
Qed.

Lemma MergeDataset_init_Ok (ds : list (DatasetBase Image)) :
  MergeDataset_init ds =
  Ok {| datasets := ds; dataflows := None; datapoint_list := None;
        _dataset_info := {| name := "merge"; url := ""; info_splits := ∅ |};
        _dataflow_builder :=
          set_splits (set_categories (MergeDataset_builder ds None)
                        (MergeDataset_categories ds)) ∅ |}.
Proof. reflexivity. Qed.

(** C7: on an instance that has not been buffered ([datapoint_list] is
    absent) [split_datasets] fails with the assertion "datasets need to be
    buffered before splitting", whatever the ratio, the [add_test] flag and
    the random sample are, and leaves the instance as it was. *)
Theorem split_datasets_requires_buffer (int_of_str : string -> option Z)
    (indices : list Z) (self : MergeDataset Image)
    (ratio : Q) (add_test : bool) :
  datapoint_list self = None →
  split_datasets int_of_str indices self ratio add_test =
  (Err (AssertionError "datasets need to be buffered before splitting"), self).
Proof. intros Hnone. unfold split_datasets. by rewrite Hnone. Qed.

(** C3: with fewer streams than datasets [explicit_dataflows] fails with
    an assertion error; with at least as many it succeeds, and then
    [build], for any options, returns the concatenation of the assigned
    streams, which yields their datapoints in assignment order. *)
Theorem explicit_dataflows_count (self : MergeDataset Image)
    (dfs : list (DataFlow Image)) :
  ((length dfs < length (datasets self))%nat →
   (explicit_dataflows self dfs).1 = Err (AssertionError "")) ∧
  ((length (datasets self) ≤ length dfs)%nat →
   (explicit_dataflows self dfs).1 = Ok tt ∧
   ∀ kwargs : Kwargs,
     build (_dataflow_builder (explicit_dataflows self dfs).2) kwargs
       = Ok (ConcatData dfs) ∧
     yields (ConcatData dfs) = concat (map yields dfs)).
Proof.
  unfold explicit_dataflows; simpl. split; intros Hlen.
  - destruct (Nat.leb_spec (length (datasets self)) (length dfs)); [lia|done].
  - destruct (Nat.leb_spec (length (datasets self)) (length dfs)); [|lia].
    split; [done|]. intros kwargs. split; [done|apply yields_ConcatData].
Qed.

(** C10 (amended): a call of [explicit_dataflows] with fewer streams than
    datasets fails after it has stored the passed streams in the
    [dataflows] field, so the instance is left changed; the active builder
    is not replaced, so a later [build] returns what it returned before
    the call. *)
Theorem explicit_dataflows_failure_state (self : MergeDataset Image)
    (dfs : list (DataFlow Image)) :
  (length dfs < length (datasets self))%nat →
  (explicit_dataflows self dfs).1 = Err (AssertionError "") ∧
  dataflows (explicit_dataflows self dfs).2 = Some dfs ∧
  datasets (explicit_dataflows self dfs).2 = datasets self ∧
  datapoint_list (explicit_dataflows self dfs).2 = datapoint_list self ∧
  _dataflow_builder (explicit_dataflows self dfs).2 = _dataflow_builder self ∧
  ∀ kwargs : Kwargs,
    build (_dataflow_builder (explicit_dataflows self dfs).2) kwargs
      = build (_dataflow_builder self) kwargs.
Proof.
  intros Hlen. unfold explicit_dataflows; simpl.
  destruct (Nat.leb_spec (length (datasets self)) (length dfs)); [lia|].
  by repeat split.
Qed.

(** C4: in streaming mode (after construction, no streams assigned)
    [build] calls [build] of every dataset's builder with the same options,
    in the order of the datasets, and returns the concatenation of the
    streams obtained; for two datasets the first [a] datapoints are those
    of the first stream, in its order, and the rest those of the second,
    where [a] is the size of the first stream. *)
Theorem streaming_build_concatenates (ds : list (DatasetBase Image))
    (self : MergeDataset Image) (kwargs : Kwargs) :
  MergeDataset_init ds = Ok self →
  build (_dataflow_builder self) kwargs
    = (df_list ← for_append (fun dataset => build (dataflow dataset) kwargs) ds;
       Ok (ConcatData df_list)) ∧
  (∀ dfs, Forall2 (fun dataset df => build (dataflow dataset) kwargs = Ok df) ds dfs →
     build (_dataflow_builder self) kwargs = Ok (ConcatData dfs) ∧
     yields (ConcatData dfs) = concat (map yields dfs)) ∧
  (∀ d1 d2 df1 df2, ds = [d1; d2] →
     build (dataflow d1) kwargs = Ok df1 →
     build (dataflow d2) kwargs = Ok df2 →
     ∃ df, build (_dataflow_builder self) kwargs = Ok df ∧
       take (length (yields df1)) (yields df) = yields df1 ∧
       drop (length (yields df1)) (yields df) = yields df2).
Proof.
  rewrite MergeDataset_init_Ok. intros [= <-]. simpl.
  unfold MergeDataFlow_build. rewrite for_append_map.
  split; [done|]. split.
  - intros dfs Hall. apply for_append_Forall2 in Hall. rewrite Hall.
    split; [done|apply yields_ConcatData].
  - intros d1 d2 df1 df2 -> H1 H2. simpl. rewrite H1, H2. simpl.
    eexists. split; [done|]. simpl. rewrite app_nil_r.
    by rewrite take_app_length, drop_app_length.
Qed.

Lemma construct_datasets_no_info (cards : list (DatasetCard Image)) :
  Exists (fun card => card_info card = None) cards →
  construct_datasets cards
  = Err (AssertionError "Dataset requires at least a name defined in DatasetInfo").
Proof.
  unfold construct_datasets.
  induction cards as [|card cards IH]; intros Hex; [by inversion Hex|].
  simpl. destruct (card_info card) as [info|] eqn:Hinfo; [|done]. simpl.
  rewrite IH; [done|]. inversion Hex; [congruence|done].
Qed.

Lemma construct_datasets_Ok (cards : list (DatasetCard Image)) :
  Forall (fun card => is_Some (card_info card)) cards →
  ∃ ds, construct_datasets cards = Ok ds ∧
    Forall2 (fun card dataset =>
               card_info card = Some (dataset_info dataset) ∧
               categories (dataflow dataset) = Some (card_categories card))
      cards ds.
Proof.
  unfold construct_datasets.
  induction 1 as [|card cards [info Hinfo] _ (ds & Hds & Hall)]; simpl.
  - eexists. split; [done|]. constructor.
  - rewrite Hinfo, Hds. simpl. eexists. split; [done|].
    constructor; [by split|done].
Qed.

Lemma passed_categories (cards : list (DatasetCard Image))
    (ds : list (DatasetBase Image)) :
  Forall2 (fun card dataset =>
             card_info card = Some (dataset_info dataset) ∧
             categories (dataflow dataset) = Some (card_categories card))
    cards ds →
  MergeDataset_categories ds = get_merged_categories (map card_categories cards).
Proof.
  unfold MergeDataset_categories. intros Hall. f_equal.
  induction Hall as [|card d cards ds [_ Hcat] _ IH]; simpl; [done|].
  rewrite Hcat. simpl. f_equal. exact IH.
Qed.


(** ** Properties of the split builder *)

Lemma split_cache_getitem_Ok (train val : list Image) (test : option (list Image))
    (split : Value) (lst : list Image) :
  split_cache_getitem (SplitDataFlow_split_cache train val test) split = Ok lst ↔
  (split = VStr "train" ∧ lst = train) ∨
  (split = VStr "val" ∧ lst = val) ∨
  (split = VStr "test" ∧ test = Some lst).
Proof.
  destruct split as [s|z]; simpl.
  2: { split; [done|]. intros [[? _]|[[? _]|[? _]]]; done. }
  destruct (decide (s = "train")) as [->|Htrain].
  { destruct test; simpl; rewrite lookup_insert_eq;
      split; [intros [= <-]; by left | intros [[_ ->]|[[? _]|[? _]]]; done
             |intros [= <-]; by left | intros [[_ ->]|[[? _]|[? _]]]; done]. }
  destruct (decide (s = "val")) as [->|Hval].
  { destruct test; simpl; rewrite lookup_insert_ne, lookup_insert_eq by done;
      split; [intros [= <-]; right; by left | intros [[? _]|[[_ ->]|[? _]]]; done
             |intros [= <-]; right; by left | intros [[? _]|[[_ ->]|[? _]]]; done]. }
  destruct (decide (s = "test")) as [->|Htest].
  { destruct test as [t|]; simpl.
    - rewrite !lookup_insert_ne, lookup_insert_eq by done.
      split; [intros [= <-]; right; by right|].
      intros [[? _]|[[? _]|[_ [= ->]]]]; done.
    - rewrite !lookup_insert_ne, lookup_empty by done.
      split; [done|]. intros [[? _]|[[? _]|[_ ?]]]; done. }
  destruct test; simpl; rewrite !lookup_insert_ne, lookup_empty by done;
    (split; [done|]; intros [[[= ?] _]|[[[= ?] _]|[[= ?] _]]]; done).
Qed.

(** C6 (amended): with [max_datapoints] given, as an integer or as a
    string that [int] accepts, [build] of the split builder takes the split
    named by [split], or "train" when [split] is absent; for a known name
    it returns a stream over that split's collection cut to at most
    [max_datapoints] datapoints, and for any other name it fails with
    [KeyError].  The known names are "train", "val" and, when a test split
    was made, "test". *)
Theorem SplitDataFlow_build_spec (int_of_str : string -> option Z)
    (train val : list Image)
    (test : option (list Image)) (kwargs : Kwargs) (m : Z) :
  int int_of_str (kwargs !! "max_datapoints") = Ok m →
  let split := default (VStr "train") (kwargs !! "split") in
  (∀ lst,
     (split = VStr "train" ∧ lst = train) ∨ (split = VStr "val" ∧ lst = val) ∨
     (split = VStr "test" ∧ test = Some lst) →
     ∃ df, build (SplitDataFlow int_of_str train val test) kwargs = Ok df ∧
       yields df = take (Z.to_nat m) lst ∧
       (length (yields df) ≤ Z.to_nat m)%nat ∧
       (length lst ≤ Z.to_nat m → yields df = lst)%nat) ∧
  (split ≠ VStr "train" → split ≠ VStr "val" →
   (split ≠ VStr "test" ∨ test = None) →
   build (SplitDataFlow int_of_str train val test) kwargs = Err (KeyError split)).
Proof.
  intros Hint split. simpl. unfold SplitDataFlow_build. rewrite Hint. simpl.
  fold split. split.
  - intros lst Hknown. apply split_cache_getitem_Ok in Hknown.
    rewrite Hknown. simpl. eexists. split; [done|]. simpl.
    split; [done|]. split; [rewrite length_take; lia|].
    intros Hle. by apply take_ge.
  - intros Htrain Hval Htest.
    destruct (split_cache_getitem (SplitDataFlow_split_cache train val test) split)
      as [lst|e] eqn:Hget.
    + apply split_cache_getitem_Ok in Hget.
      destruct Hget as [[? _]|[[? _]|[? Hsome]]]; [done|done|].
      destruct Htest as [?|Hnone]; [done|]. congruence.
    + simpl. unfold split_cache_getitem in Hget.
      destruct split as [s'|z]; [|congruence].
      destruct (_ !! s'); congruence.
Qed.

(** ** Properties of the split *)

Lemma select_pick (dl : list Image) (indices : list Z) (v : Z) :
  length indices = length dl →
  select dl indices v = Ok (pick v dl indices).
Proof.
  unfold select. revert indices.
  induction dl as [|dp dl IH]; intros [|d ds] Hlen; simplify_eq/=; [done|].
  specialize (IH ds ltac:(done)).
  rewrite <- fmap_S_seq.
  change (S <$> seq 0 (length dl)) with (map S (seq 0 (length dl))).
  rewrite for_append_map. unfold getitem in *. simpl.
  destruct (for_append _ (seq 0 (length dl))) as [chosen|e] eqn:Hfor;
    simplify_eq/=.
  destruct (d =? v)%Z; simpl; by rewrite IH.
Qed.

Lemma positions_cover (j : nat) (indices : list Z) :
  Forall (fun d => d = 0 ∨ d = 1) indices →
  positions 0 j indices ++ positions 1 j indices ≡ₚ seq j (length indices).
Proof.
  intros Hall. revert j.
  induction Hall as [|d ds [->| ->] _ IH]; intros j; simpl; [done| |].
  - by rewrite IH.
  - by rewrite <- Permutation_middle, IH.
Qed.

Lemma positions_pick (v : Z) (j : nat) (dl : list Image) (indices : list Z) :
  length indices = length dl →
  Forall2 (fun i dp => (j ≤ i)%nat ∧ dl !! (i - j)%nat = Some dp ∧
                       indices !! (i - j)%nat = Some v)
    (positions v j indices) (pick v dl indices).
Proof.
  revert j indices.
  induction dl as [|dp dl IH]; intros j [|d ds] Hlen; simplify_eq/=;
    [constructor|].
  specialize (IH (S j) ds ltac:(done)).
  assert (Htail : Forall2 (fun i dp0 => (j ≤ i)%nat ∧
            (dp :: dl) !! (i - j)%nat = Some dp0 ∧
            (d :: ds) !! (i - j)%nat = Some v)
            (positions v (S j) ds) (pick v dl ds)).
  { eapply Forall2_impl; [exact IH|]. intros i dp0 (Hle & Hdl & Hds).
    replace (i - j)%nat with (S (i - S j)) by lia. split; [lia|done]. }
  destruct (Z.eqb_spec d v) as [->|Hne]; [|done].
  constructor; [|done]. rewrite Nat.sub_diag. split; [lia|done].
Qed.

Lemma pick_permutation (dl : list Image) (indices : list Z) :
  length indices = length dl →
  Forall (fun d => d = 0 ∨ d = 1) indices →
  pick 0 dl indices ++ pick 1 dl indices ≡ₚ dl.
Proof.
  intros Hlen Hall. revert dl Hlen.
  induction Hall as [|d ds [->| ->] _ IH]; intros [|dp dl] Hlen;
    simplify_eq/=; try done.
  - by rewrite IH.
  - by rewrite <- Permutation_middle, IH.
Qed.

Lemma mod2_even (n : nat) : (n mod 2 =? 0)%nat = Nat.even n.
Proof.
  destruct (Nat.even n) eqn:Heven.
  - apply Nat.even_spec in Heven as [m ->].
    rewrite Nat.mul_comm, Nat.Div0.mod_mul. done.
  - rewrite <- Nat.negb_odd in Heven. apply negb_false_iff in Heven.
    apply Nat.odd_spec in Heven as [m ->].
    rewrite Nat.add_comm, Nat.mul_comm, Nat.Div0.mod_add. done.
Qed.

Lemma odd_id_even {A} (n : nat) (x : A) : odd_id (n, x) = negb (Nat.even n).
Proof. unfold odd_id. cbn [fst]. by rewrite mod2_even. Qed.

Lemma filter_parity_imap {A} (j : nat) (lst : list A) :
  map snd (List.filter (fun p => negb (odd_id p))
             (imap (fun id dp => ((j + id)%nat, dp)) lst))
    = (if Nat.even j then (alternate lst).1 else (alternate lst).2) ∧
  map snd (List.filter odd_id (imap (fun id dp => ((j + id)%nat, dp)) lst))
    = (if Nat.even j then (alternate lst).2 else (alternate lst).1).
Proof.
  revert j. induction lst as [|x lst IH]; intros j.
  { simpl. by destruct (Nat.even j). }
  destruct (IH (S j)) as [IHe IHo].
  rewrite Nat.even_succ, <- Nat.negb_even in IHe, IHo.
  rewrite imap_cons.
  rewrite (imap_ext _ (fun id dp => ((S j + id)%nat, dp)))
    by (intros; simpl; f_equal; lia).
  cbn [List.filter]. rewrite !odd_id_even, Nat.add_0_r.
  destruct (Nat.even j); cbn [negb map snd fst alternate] in *;
    by rewrite ?IHe, ?IHo.
Qed.

Lemma alternate_lookup {A} (lst : list A) (k : nat) :
  (alternate lst).1 !! k = lst !! (2 * k)%nat ∧
  (alternate lst).2 !! k = lst !! (2 * k + 1)%nat.
Proof.
  revert k. induction lst as [|x lst IH]; intros k; [done|].
  simpl alternate. split.
  - destruct k as [|k]; [done|].
    replace (2 * S k)%nat with (S (2 * k + 1)) by lia.
    simpl. apply IH.
  - replace (2 * k + 1)%nat with (S (2 * k)) by lia.
    simpl. apply IH.
Qed.

Lemma alternate_length {A} (lst : list A) :
  (length (alternate lst).2 ≤ length (alternate lst).1
   ≤ length (alternate lst).2 + 1)%nat.
Proof. induction lst as [|x lst IH]; simpl; lia. Qed.

Lemma ratio_check (ratio : Q) :
  (0 <= ratio)%Q → (ratio <= 1)%Q →
  negb (Qle_bool 0 ratio && Qle_bool ratio 1) = false.
Proof.
  intros H0 H1. apply Qle_bool_iff in H0, H1. by rewrite H0, H1.
Qed.

Lemma expectation_ext (ratio : Q) (n : nat) (f g : list Z -> Q) :
  (∀ ds, length ds = n → Forall (fun d => d = 0 ∨ d = 1) ds → (f ds == g ds)%Q) →
  (expectation ratio n f == expectation ratio n g)%Q.
Proof.
  revert f g. induction n as [|n IH]; intros f g Hfg; simpl.
  - by apply Hfg.
  - rewrite (IH (fun ds => f (0 :: ds)) (fun ds => g (0 :: ds))),
            (IH (fun ds => f (1 :: ds)) (fun ds => g (1 :: ds))); [done| |].
    + intros ds Hlen Hall. apply Hfg; simpl; [lia|]. constructor; auto.
    + intros ds Hlen Hall. apply Hfg; simpl; [lia|]. constructor; auto.
Qed.

Lemma expectation_plus_const (ratio c : Q) (n : nat) (g : list Z -> Q) :
  (expectation ratio n (fun ds => c + g ds) == c + expectation ratio n g)%Q.
Proof.
  revert g. induction n as [|n IH]; intros g; simpl; [done|].
  rewrite (IH (fun ds => g (0 :: ds))), (IH (fun ds => g (1 :: ds))). ring.
Qed.

Lemma size_Q_cons {A} (x : A) (lst : list A) :
  (size_Q (x :: lst) == 1 + size_Q lst)%Q.
Proof.
  unfold size_Q. simpl length. rewrite Nat2Z.inj_succ, <- Z.add_1_l.
  by rewrite inject_Z_plus.
Qed.

Lemma expectation_pick (ratio : Q) (dl : list Image) :
  (expectation ratio (length dl) (fun ds => size_Q (pick 1 dl ds))
   == ratio * size_Q dl)%Q.
Proof.
  induction dl as [|dp dl IH]; simpl expectation.
  - unfold size_Q. simpl. ring.
  - simpl pick.
    rewrite (expectation_ext ratio (length dl)
               (fun ds => size_Q (dp :: pick 1 dl ds))
               (fun ds => (1 + size_Q (pick 1 dl ds))%Q))
      by (intros; apply size_Q_cons).
    rewrite expectation_plus_const, IH, size_Q_cons. ring.
Qed.

Lemma shuffle_permutation (draws : list nat) (lst : list Image) :
  shuffle draws lst ≡ₚ lst.
Proof.
  revert draws. induction lst as [|dp lst IH]; intros draws; simpl; [done|].
  by rewrite <- Permutation_middle, take_drop, IH.
Qed.

Lemma shuffle_length (draws : list nat) (lst : list Image) :
  length (shuffle draws lst) = length lst.
Proof. by rewrite shuffle_permutation. Qed.

Lemma fmap_bind_list {A B C} (f : B -> C) (g : A -> list B) (l : list A) :
  f <$> (l ≫= g) = l ≫= (fun x => f <$> g x).
Proof.
  induction l as [|x l IH]; [done|].
  by rewrite !bind_cons, fmap_app, IH.
Qed.

Lemma interleave_seq {A} (x : A) (l : list A) :
  (fun d => take d l ++ x :: drop d l) <$> seq 0 (S (length l)) = interleave x l.
Proof.
  induction l as [|y l IH]; [done|].
  change (seq 0 (S (length (y :: l)))) with (0%nat :: seq 1 (S (length l))).
  rewrite <- fmap_S_seq, fmap_cons, <- list_fmap_compose. simpl.
  f_equal. rewrite <- IH, <- list_fmap_compose. done.
Qed.

Lemma shuffle_cons (d : nat) (ds : list nat) (dp : Image) (lst : list Image) :
  shuffle (d :: ds) (dp :: lst)
  = take (d mod S (length (shuffle ds lst))) (shuffle ds lst)
    ++ dp :: drop (d mod S (length (shuffle ds lst))) (shuffle ds lst).
Proof. reflexivity. Qed.

(** Over the random sources the shuffle gives every arrangement of the
    list once: the outcomes are the list of its permutations. *)
Lemma shuffle_all_draws (lst : list Image) :
  (fun draws => shuffle draws lst) <$> all_draws (length lst) = permutations lst.
Proof.
  induction lst as [|dp lst IH]; [done|].
  simpl all_draws. simpl permutations.
  rewrite fmap_bind_list, <- IH, list_fmap_bind.
  apply list_bind_ext; [|done]. intros ds.
  change ((fun draws => shuffle draws (dp :: lst))
            <$> ((fun d => d :: ds) <$> seq 0 (S (length lst)))
          = interleave dp (shuffle ds lst)).
  rewrite <- list_fmap_compose, <- interleave_seq, shuffle_length.
  apply list_fmap_ext. intros i d Hd.
  apply lookup_seq in Hd as [-> Hi]. unfold compose.
  by rewrite shuffle_cons, shuffle_length, Nat.mod_small by lia.
Qed.

(** C2: on a buffer of [N] datapoints [split_datasets] without a test
    split succeeds and makes a train and a val split whose sizes add up to
    [N].  The positions of the buffer are divided between the two splits:
    train holds the datapoints whose draw is 0 and val those whose draw is
    1, each position in exactly one of them; so train followed by val is a
    rearrangement of the buffer, and no datapoint is in both when the
    buffer has no repetition.  Over the draws the expected size of val is
    [ratio * N]. *)
Theorem split_datasets_train_val (int_of_str : string -> option Z)
    (indices : list Z) (self : MergeDataset Image)
    (dl : list Image) (ratio : Q) :
  datapoint_list self = Some dl →
  binomial_sample (length dl) indices →
  (0 <= ratio)%Q → (ratio <= 1)%Q →
  (∃ train val self',
     split_datasets int_of_str indices self ratio false = (Ok tt, self') ∧
     _dataflow_builder self' =
       set_categories (SplitDataFlow int_of_str train val None)
         (MergeDataset_categories (datasets self)) ∧
     (length train + length val = length dl)%nat ∧
     train ++ val ≡ₚ dl ∧
     (∃ i_train i_val,
        i_train ++ i_val ≡ₚ seq 0 (length dl) ∧
        Forall2 (fun i dp => dl !! i = Some dp ∧ indices !! i = Some 0)
          i_train train ∧
        Forall2 (fun i dp => dl !! i = Some dp ∧ indices !! i = Some 1)
          i_val val) ∧
     (NoDup dl → ∀ dp, dp ∈ train → dp ∉ val)) ∧
  (expectation ratio (length dl) (val_size dl ratio) == ratio * size_Q dl)%Q.
Proof.
  intros Hbuf [Hlen Hall] H0 H1.
  assert (Hsplit : ∀ ds, length ds = length dl →
            split_lists ds dl ratio false = Ok (pick 0 dl ds, pick 1 dl ds, None)).
  { intros ds Hds. unfold split_lists.
    rewrite ratio_check, !select_pick by done. done. }
  split.
  - exists (pick 0 dl indices), (pick 1 dl indices). eexists.
    unfold split_datasets. rewrite Hbuf, Hsplit by done.
    split; [reflexivity|]. split; [reflexivity|].
    pose proof (pick_permutation dl indices Hlen Hall) as Hperm.
    split; [by rewrite <- length_app, Hperm|]. split; [done|]. split.
    + exists (positions 0 0 indices), (positions 1 0 indices).
      split; [rewrite <- Hlen; by apply positions_cover|].
      split; (eapply Forall2_impl; [by apply positions_pick|]);
        intros i dp (_ & Hdl & Hds); by rewrite Nat.sub_0_r in Hdl, Hds.
    + intros Hnodup dp Htrain Hval.
      rewrite <- Hperm in Hnodup. apply NoDup_app in Hnodup as (_ & Hdisj & _).
      by apply (Hdisj dp).
  - rewrite <- expectation_pick. apply expectation_ext.
    intros ds Hds _. unfold val_size. by rewrite Hsplit.
Qed.

(** C5: with a test split, the held-out pool (the datapoints whose draw
    is 1, in the order of the buffer, which is the val split made without
    a test split) is divided by position: val holds the datapoints at the
    positions 0, 2, 4, ... of the pool and test those at the positions 1,
    3, 5, ..., so val has as many datapoints as test or one more. *)
Theorem split_datasets_val_test (int_of_str : string -> option Z)
    (indices : list Z) (self : MergeDataset Image)
    (dl : list Image) (ratio : Q) :
  datapoint_list self = Some dl →
  binomial_sample (length dl) indices →
  (0 <= ratio)%Q → (ratio <= 1)%Q →
  ∃ train pool val test self',
    split_lists indices dl ratio false = Ok (train, pool, None) ∧
    split_datasets int_of_str indices self ratio true = (Ok tt, self') ∧
    _dataflow_builder self' =
      set_categories (SplitDataFlow int_of_str train val (Some test))
        (MergeDataset_categories (datasets self)) ∧
    (∀ k : nat, val !! k = pool !! (2 * k)%nat) ∧
    (∀ k : nat, test !! k = pool !! (2 * k + 1)%nat) ∧
    (length test ≤ length val ≤ length test + 1)%nat.
Proof.
  intros Hbuf [Hlen Hall] H0 H1.
  exists (pick 0 dl indices), (pick 1 dl indices),
    (alternate (pick 1 dl indices)).1, (alternate (pick 1 dl indices)).2.
  eexists. unfold split_datasets, split_lists.
  rewrite Hbuf, ratio_check, !select_pick by done. simpl.
  destruct (filter_parity_imap 0 (pick 1 dl indices)) as [Heven Hodd].
  simpl in Heven, Hodd. unfold enumerate. rewrite Heven, Hodd.
  split; [done|]. split; [reflexivity|]. split; [reflexivity|].
  split; [intros k; apply alternate_lookup|].
  split; [intros k; apply alternate_lookup|apply alternate_length].
Qed.

(** C8: [buffer_datasets] builds the stream of the active builder with the
    given options and stores as the buffer a rearrangement of all the
    datapoints the stream yields, each as often as the stream yields it;
    an empty stream gives an empty buffer.  The order is the random
    source's: every rearrangement of the stream is the buffer for some
    random source, and over the random sources each of the arrangements
    comes once, so a uniform source gives a uniform order. *)
Theorem buffer_datasets_permutation (draws : list nat)
    (self : MergeDataset Image) (kwargs : Kwargs) (df : DataFlow Image) :
  build (_dataflow_builder self) kwargs = Ok df →
  (∃ buffered self',
     buffer_datasets draws self kwargs = (Ok tt, self') ∧
     datapoint_list self' = Some buffered ∧
     datasets self' = datasets self ∧ dataflows self' = dataflows self ∧
     _dataflow_builder self' = _dataflow_builder self ∧
     buffered ≡ₚ yields df ∧
     (yields df = [] → buffered = [])) ∧
  (∀ target, target ≡ₚ yields df →
     ∃ draws', draws' ∈ all_draws (length (yields df)) ∧
       datapoint_list (buffer_datasets draws' self kwargs).2 = Some target) ∧
  (fun draws' => datapoint_list (buffer_datasets draws' self kwargs).2)
    <$> all_draws (length (yields df))
  = Some <$> permutations (yields df).
Proof.
  intros Hbuild.
  assert (Hbuffer : ∀ draws', datapoint_list (buffer_datasets draws' self kwargs).2
                              = Some (shuffle draws' (yields df)))
    by (intros draws'; unfold buffer_datasets; by rewrite Hbuild).
  split; [|split].
  - unfold buffer_datasets. rewrite Hbuild.
    eexists _, _. split; [reflexivity|]. simpl.
    repeat split; try done.
    + apply shuffle_permutation.
    + unfold CacheData_get_cache. by intros ->.
  - intros target Htarget. symmetry in Htarget.
    apply permutations_Permutation in Htarget.
    rewrite <- shuffle_all_draws in Htarget.
    apply list_elem_of_fmap in Htarget as (draws' & -> & Hdraws).
    exists draws'. split; [done|apply Hbuffer].
  - rewrite <- shuffle_all_draws, <- list_fmap_compose.
    apply list_fmap_ext. intros i draws' _. apply Hbuffer.
Qed.

(** ** Properties of the merged categories *)

Lemma merge_two_lookup (a b : DatasetCategories) (c : string) :
  cat_values (merge_two a b) !! c
  = union_with union_values (cat_values a !! c) (cat_values b !! c).
Proof. unfold merge_two; simpl. apply lookup_union_with. Qed.

Lemma merge_two_defines (a b : DatasetCategories) (c : string) :
  defines (merge_two a b) c ↔ defines a c ∨ defines b c.
Proof.
  unfold defines. rewrite merge_two_lookup.
  destruct (cat_values a !! c), (cat_values b !! c); simpl;
    rewrite <- ?not_eq_None_Some; naive_solver.
Qed.

Lemma merge_two_values (a b : DatasetCategories) (c : string) :
  values (merge_two a b) c = values a c ∪ values b c.
Proof.
  unfold values. rewrite merge_two_lookup.
  destruct (cat_values a !! c), (cat_values b !! c); simpl; set_solver.
Qed.

Lemma merge_two_subs (a b : DatasetCategories) (c : string) :
  defines (merge_two a b) c →
  subs (merge_two a b) c = merge_subs a b c.
Proof.
  intros [vs Hvs]. unfold subs. unfold merge_two in *; simpl in *.
  by rewrite map_lookup_imap, Hvs.
Qed.

Lemma merge_subs_names (a b : DatasetCategories) (c s : string) :
  defines a c ∨ defines b c →
  s ∈ dom (merge_subs a b c) ↔
  (defines a c → s ∈ sub_names a c) ∧ (defines b c → s ∈ sub_names b c).
Proof.
  unfold merge_subs, defines, sub_names.
  destruct (cat_values a !! c) as [va|], (cat_values b !! c) as [vb|];
    intros Hdef.
  - rewrite !elem_of_dom, lookup_intersection_with.
    destruct (subs a c !! s), (subs b c !! s); simpl;
      rewrite <- ?not_eq_None_Some; naive_solver.
  - split; [|naive_solver]. intros ?. split; [done|]. by intros [? ?].
  - split; [|naive_solver]. intros ?. split; [|done]. by intros [? ?].
  - destruct Hdef as [[? ?]|[? ?]]; done.
Qed.

Lemma merged_defines (rs : list DatasetCategories) (c : string) :
  defines (get_merged_categories rs) c ↔ ∃ r, r ∈ rs ∧ defines r c.
Proof.
  induction rs as [|r rs IH]; simpl.
  - unfold defines; simpl. rewrite lookup_empty. split.
    + by intros [? ?].
    + intros (r & Hr & _). by apply elem_of_nil in Hr.
  - rewrite merge_two_defines, IH. split.
    + intros [Hr|(r' & Hr' & Hdef)]; [exists r|exists r']; split;
        auto using list_elem_of_here, list_elem_of_further.
    + intros (r' & Hr' & Hdef). apply elem_of_cons in Hr' as [->|Hr'];
        [by left|right; eauto].
Qed.

Lemma merged_values (rs : list DatasetCategories) (c v : string) :
  v ∈ values (get_merged_categories rs) c ↔ ∃ r, r ∈ rs ∧ v ∈ values r c.
Proof.
  induction rs as [|r rs IH]; simpl.
  - unfold values; simpl. rewrite lookup_empty; simpl. split.
    + intros Hv. by apply not_elem_of_empty in Hv.
    + intros (r & Hr & _). by apply elem_of_nil in Hr.
  - rewrite merge_two_values, elem_of_union, IH. split.
    + intros [Hr|(r' & Hr' & Hv)]; [exists r|exists r']; split;
        auto using list_elem_of_here, list_elem_of_further.
    + intros (r' & Hr' & Hv). apply elem_of_cons in Hr' as [->|Hr'];
        [by left|right; eauto].
Qed.

Lemma merged_sub_names (rs : list DatasetCategories) (c s : string) :
  defines (get_merged_categories rs) c →
  s ∈ sub_names (get_merged_categories rs) c ↔
  ∀ r, r ∈ rs → defines r c → s ∈ sub_names r c.
Proof.
  induction rs as [|r rs IH]; simpl.
  - unfold defines; simpl. rewrite lookup_empty. by intros [? ?].
  - intros Hdef. unfold sub_names at 1. rewrite merge_two_subs by done.
    apply merge_two_defines in Hdef. rewrite merge_subs_names by done.
    split.
    + intros [Hr Hrest] r' Hr' Hdef'.
      apply elem_of_cons in Hr' as [->|Hr']; [by apply Hr|].
      assert (Hm : defines (get_merged_categories rs) c)
        by (apply merged_defines; eauto).
      apply (IH Hm); auto.
    + intros Hall. split.
      * intros Hr. apply Hall; [apply list_elem_of_here|done].
      * intros Hm. apply (IH Hm). intros r' Hr' Hdef'.
        apply Hall; [by apply list_elem_of_further|done].
Qed.

(** C1: for the registries of the datasets that carry one, the
    categories of the merge are the union of their category names, the
    permitted values of a category are the union of its values over the
    registries, and under a category of the merge a sub-category is kept
    if and only if every registry that defines the category has it for
    that category. *)
Theorem merged_categories_spec (ds : list (DatasetBase Image)) :
  let merged := MergeDataset_categories ds in
  let passed r := ∃ dataset, dataset ∈ ds ∧ categories (dataflow dataset) = Some r in
  (∀ c, c ∈ dom (cat_values merged) ↔ ∃ r, passed r ∧ c ∈ dom (cat_values r)) ∧
  (∀ c v, v ∈ values merged c ↔ ∃ r, passed r ∧ v ∈ values r c) ∧
  (∀ c, c ∈ dom (cat_values merged) →
     ∀ s, s ∈ sub_names merged c ↔
          ∀ r, passed r → c ∈ dom (cat_values r) → s ∈ sub_names r c).
Proof.
  intros merged passed. subst merged passed. unfold MergeDataset_categories.
  set (rs := omap _ ds).
  assert (Hpassed : ∀ r, r ∈ rs ↔
            ∃ dataset, dataset ∈ ds ∧ categories (dataflow dataset) = Some r)
    by (intros r; apply list_elem_of_omap).
  split; [|split].
  - intros c. rewrite elem_of_dom. fold (defines (get_merged_categories rs) c).
    rewrite merged_defines. split; intros (r & Hr & Hc); exists r;
      (split; [by apply Hpassed|]); by apply elem_of_dom.
  - intros c v. rewrite merged_values.
    split; intros (r & Hr & Hv); exists r; (split; [by apply Hpassed|done]).
  - intros c Hc s. apply elem_of_dom in Hc. rewrite merged_sub_names by done.
    split; intros Hall r Hr Hdef.
    + apply Hall; [by apply Hpassed|by apply elem_of_dom].
    + apply Hall; [by apply Hpassed|by apply elem_of_dom].
Qed.

End properties.

(** ** The concrete instances, run *)

Example union_dataset_init :
  MergeDataset_init [dataset_1; dataset_2] = Ok union_dataset.
Proof. reflexivity. Qed.

Example buffered_dataset_buffer :
  buffer_datasets [1; 1; 0]%nat union_dataset ∅ = (Ok tt, buffered_dataset).
Proof. reflexivity. Qed.

(** Without [max_datapoints] the split builder raises [TypeError], from
    [int(None)]. *)
Example SplitDataFlow_build_without_max_datapoints :
  build (SplitDataFlow no_int_of_str [1; 2]%nat [3]%nat None)
    {[ "split" := VStr "val" ]} = Err TypeError.
Proof. reflexivity. Qed.

Lemma merged_categories_spec_witness :
  "table" ∈ dom (cat_values (MergeDataset_categories [dataset_1; dataset_2; dataset_3])) ∧
  "kind" ∈ sub_names (MergeDataset_categories [dataset_1; dataset_2; dataset_3]) "table" ∧
  "span" ∉ sub_names (MergeDataset_categories [dataset_1; dataset_2; dataset_3]) "table".
Proof.
  assert (Hdom : "table" ∈ dom (cat_values
            (MergeDataset_categories [dataset_1; dataset_2; dataset_3]))).
  { apply elem_of_dom. eexists. vm_compute. reflexivity. }
  destruct (merged_categories_spec [dataset_1; dataset_2; dataset_3])
    as (_ & _ & Hsub).
  split; [exact Hdom|]. split.
  - apply (Hsub "table" Hdom "kind").
    intros r (d & Hd & Hr) _.
    repeat (apply elem_of_cons in Hd as [->|Hd]); simplify_eq/=.
    + apply elem_of_dom. eexists. vm_compute. reflexivity.
    + apply elem_of_dom. eexists. vm_compute. reflexivity.
    + by apply elem_of_nil in Hd.
  - intros Hspan. apply (Hsub "table" Hdom "span") with (r := table_categories) in Hspan.
    + unfold sub_names in Hspan.
      apply elem_of_dom in Hspan as [vs Hvs]. vm_compute in Hvs. discriminate.
    + exists dataset_2. split; [|reflexivity].
      apply list_elem_of_further, list_elem_of_here.
    + apply elem_of_dom. eexists. vm_compute. reflexivity.
Defined.

Lemma split_datasets_train_val_witness :
  datapoint_list buffered_dataset = Some [3; 1; 2]%nat ∧
  binomial_sample 3 [0; 1; 0] ∧ (0 <= 1 # 2)%Q ∧ (1 # 2 <= 1)%Q ∧
  ∃ train val self',
    split_datasets no_int_of_str [0; 1; 0] buffered_dataset (1 # 2) false
      = (Ok tt, self') ∧
    (length train + length val = 3)%nat ∧ train ++ val ≡ₚ [3; 1; 2]%nat.
Proof.
  assert (Hbuf : datapoint_list buffered_dataset = Some [3; 1; 2]%nat)
    by reflexivity.
  assert (Hsample : binomial_sample (length [3; 1; 2]%nat) [0; 1; 0])
    by (split; [reflexivity|repeat (constructor; [auto|])]; constructor).
  assert (H0 : (0 <= 1 # 2)%Q) by (unfold Qle; simpl; lia).
  assert (H1 : (1 # 2 <= 1)%Q) by (unfold Qle; simpl; lia).
  repeat (split; [assumption|]).
  destruct (split_datasets_train_val no_int_of_str [0; 1; 0] buffered_dataset
              [3; 1; 2]%nat (1 # 2) Hbuf Hsample H0 H1)
    as [(train & val & self' & Hrun & _ & Hsize & Hperm & _) _].
  exists train, val, self'. by repeat split.
Defined.

Lemma split_datasets_val_test_witness :
  datapoint_list buffered_dataset = Some [3; 1; 2]%nat ∧
  binomial_sample 3 [1; 1; 1] ∧ (0 <= 1 # 2)%Q ∧ (1 # 2 <= 1)%Q ∧
  ∃ val test self',
    split_datasets no_int_of_str [1; 1; 1] buffered_dataset (1 # 2) true
      = (Ok tt, self') ∧
    _dataflow_builder self' =
      set_categories (SplitDataFlow no_int_of_str [] val (Some test))
        (MergeDataset_categories (datasets buffered_dataset)) ∧
    val !! 0%nat = Some 3%nat ∧ test !! 0%nat = Some 1%nat ∧
    val !! 1%nat = Some 2%nat.
Proof.
  assert (Hbuf : datapoint_list buffered_dataset = Some [3; 1; 2]%nat)
    by reflexivity.
  assert (Hsample : binomial_sample (length [3; 1; 2]%nat) [1; 1; 1])
    by (split; [reflexivity|repeat (constructor; [auto|])]; constructor).
  assert (H0 : (0 <= 1 # 2)%Q) by (unfold Qle; simpl; lia).
  assert (H1 : (1 # 2 <= 1)%Q) by (unfold Qle; simpl; lia).
  repeat (split; [assumption|]).
  destruct (split_datasets_val_test no_int_of_str [1; 1; 1] buffered_dataset
              [3; 1; 2]%nat (1 # 2) Hbuf Hsample H0 H1)
    as (train & pool & val & test & self' & Hpool & Hrun & Hbuilder & Hval & Htest & _).
  vm_compute in Hpool. injection Hpool as <- <-.
  exists val, test, self'.
  split; [exact Hrun|]. split; [exact Hbuilder|].
  rewrite (Hval 0%nat), (Htest 0%nat), (Hval 1%nat). by repeat split.
Defined.

Lemma SplitDataFlow_build_spec_witness :
  int no_int_of_str (({[ "split" := VStr "val"; "max_datapoints" := VInt 2 ]}
                       : Kwargs) !! "max_datapoints") = Ok 2 ∧
  ∃ df,
    build (SplitDataFlow no_int_of_str [1; 2]%nat [3; 4; 5]%nat None)
      {[ "split" := VStr "val"; "max_datapoints" := VInt 2 ]} = Ok df ∧
    yields df = [3; 4]%nat.
Proof.
  assert (Hint : int no_int_of_str
            (({[ "split" := VStr "val"; "max_datapoints" := VInt 2 ]} : Kwargs)
               !! "max_datapoints") = Ok 2) by reflexivity.
  split; [exact Hint|].
  destruct (SplitDataFlow_build_spec no_int_of_str [1; 2]%nat [3; 4; 5]%nat None
              _ 2 Hint) as [Hknown _].
  destruct (Hknown [3; 4; 5]%nat) as (df & Hbuild & Hyields & _).
  { right; left. split; reflexivity. }
  exists df. split; [exact Hbuild|exact Hyields].
Defined.

Lemma split_datasets_requires_buffer_witness :
  datapoint_list union_dataset = None ∧
  split_datasets no_int_of_str [0; 1] union_dataset (1 # 10) true =
  (Err (AssertionError "datasets need to be buffered before splitting"),
   union_dataset).
Proof.
  split; [reflexivity|].
  apply (split_datasets_requires_buffer no_int_of_str). reflexivity.
Defined.


Lemma buffer_datasets_permutation_witness :
  build (_dataflow_builder union_dataset) ∅
    = Ok (ConcatData [DataFromList [1; 2]%nat; DataFromList [3]%nat]) ∧
  (∃ self',
     buffer_datasets [1; 1; 0]%nat union_dataset ∅ = (Ok tt, self') ∧
     datapoint_list self' = Some [3; 1; 2]%nat) ∧
  (∃ draws',
     datapoint_list (buffer_datasets draws' union_dataset ∅).2
     = Some [2; 3; 1]%nat) ∧
  length ((fun draws' => datapoint_list (buffer_datasets draws' union_dataset ∅).2)
            <$> all_draws 3) = 6%nat.
Proof.
  assert (Hbuild : build (_dataflow_builder union_dataset) ∅
            = Ok (ConcatData [DataFromList [1; 2]%nat; DataFromList [3]%nat]))
    by reflexivity.
  split; [exact Hbuild|].
  destruct (buffer_datasets_permutation [1; 1; 0]%nat union_dataset ∅ _ Hbuild)
    as ((buffered & self' & Hrun & Hlist & _) & Hany & Hall).
  split; [|split].
  - exists self'. split; [exact Hrun|].
    assert (Hcomp : datapoint_list
              (buffer_datasets [1; 1; 0]%nat union_dataset ∅).2
              = Some [3; 1; 2]%nat) by reflexivity.
    rewrite Hrun in Hcomp. exact Hcomp.
  - destruct (Hany [2; 3; 1]%nat) as (draws' & _ & Htarget).
    + change (yields (ConcatData [DataFromList [1; 2]%nat; DataFromList [3]%nat]))
        with [1; 2; 3]%nat.
      apply Permutation_sym, Permutation_cons_append.
    + exists draws'. exact Htarget.
  - change (length (yields (ConcatData [DataFromList [1; 2]%nat;
                                        DataFromList [3]%nat])))
      with 3%nat in Hall.
    rewrite Hall. reflexivity.
Defined.

Lemma explicit_dataflows_count_witness :
  (length [DataFromList [9]%nat] < length (datasets union_dataset))%nat ∧
  (explicit_dataflows union_dataset [DataFromList [9]%nat]).1
    = Err (AssertionError "") ∧
  (length (datasets union_dataset)
   ≤ length [DataFromList [7]%nat; DataFromList [8]%nat; DataFromList [9]%nat])%nat ∧
  build (_dataflow_builder
           (explicit_dataflows union_dataset
              [DataFromList [7]%nat; DataFromList [8]%nat; DataFromList [9]%nat]).2)
    {[ "max_datapoints" := VInt 1 ]}
    = Ok (ConcatData [DataFromList [7]%nat; DataFromList [8]%nat; DataFromList [9]%nat]).
Proof.
  assert (Hlt : (length [DataFromList [9]%nat]
                 < length (datasets union_dataset))%nat) by (simpl; lia).
  assert (Hle : (length (datasets union_dataset)
                 ≤ length [DataFromList [7]%nat; DataFromList [8]%nat;
                           DataFromList [9]%nat])%nat) by (simpl; lia).
  split; [exact Hlt|].
  split; [exact (proj1 (explicit_dataflows_count union_dataset _) Hlt)|].
  split; [exact Hle|].
  destruct (proj2 (explicit_dataflows_count union_dataset _) Hle) as [_ Hbuild].
  exact (proj1 (Hbuild _)).
Defined.

Lemma explicit_dataflows_failure_state_witness :
  (length [DataFromList [9]%nat] < length (datasets union_dataset))%nat ∧
  dataflows (explicit_dataflows union_dataset [DataFromList [9]%nat]).2
    = Some [DataFromList [9]%nat] ∧
  build (_dataflow_builder
           (explicit_dataflows union_dataset [DataFromList [9]%nat]).2) ∅
    = build (_dataflow_builder union_dataset) ∅.
Proof.
  assert (Hlt : (length [DataFromList [9]%nat]
                 < length (datasets union_dataset))%nat) by (simpl; lia).
  split; [exact Hlt|].
  destruct (explicit_dataflows_failure_state union_dataset _ Hlt)
    as (_ & Hflows & _ & _ & _ & Hbuild).
  split; [exact Hflows|apply Hbuild].
Defined.

Lemma streaming_build_concatenates_witness :
  MergeDataset_init [dataset_1; dataset_2] = Ok union_dataset ∧
  ∃ df, build (_dataflow_builder union_dataset) {[ "split" := VStr "train" ]} = Ok df ∧
    take 2 (yields df) = [1; 2]%nat ∧ drop 2 (yields df) = [3]%nat.
Proof.
  assert (Hinit : MergeDataset_init [dataset_1; dataset_2] = Ok union_dataset)
    by reflexivity.
  split; [exact Hinit|].
  destruct (streaming_build_concatenates [dataset_1; dataset_2] union_dataset
              {[ "split" := VStr "train" ]} Hinit) as (_ & _ & Htwo).
  exact (Htwo dataset_1 dataset_2 (DataFromList [1; 2]%nat) (DataFromList [3]%nat)
           eq_refl eq_refl eq_refl).
Defined.

(** C6, as stated, fails: in split mode [build] without a [split] argument
    does not fail, it returns the stream over the train split. *)
Lemma SplitDataFlow_build_split_not_required :
  ({[ "max_datapoints" := VInt 1 ]} : Kwargs) !! "split" = None ∧
  build (SplitDataFlow no_int_of_str [1; 2]%nat [3]%nat None)
    {[ "max_datapoints" := VInt 1 ]}
    = Ok (CustomDataFromList [1; 2]%nat (Some 1)).
Proof. split; reflexivity. Qed.

(** C10, as stated, fails: after a failed call with one stream for two
    datasets, [build] still concatenates the streams of the two datasets
    and does not use the stream passed. *)
Lemma explicit_dataflows_failure_build :
  (explicit_dataflows union_dataset [DataFromList [9]%nat]).1
    = Err (AssertionError "") ∧
  dataflows (explicit_dataflows union_dataset [DataFromList [9]%nat]).2
    = Some [DataFromList [9]%nat] ∧
  build (_dataflow_builder
           (explicit_dataflows union_dataset [DataFromList [9]%nat]).2) ∅
    = Ok (ConcatData [DataFromList [1; 2]%nat; DataFromList [3]%nat]) ∧
  build (_dataflow_builder
           (explicit_dataflows union_dataset [DataFromList [9]%nat]).2) ∅
    ≠ Ok (ConcatData [DataFromList [9]%nat]).
Proof. repeat split; try reflexivity. discriminate. Qed.

(** ** Further properties of the builders and of the split *)

Section further_properties.

Context {Image : Type}.

Lemma alternate_permutation {A} (lst : list A) :
  (alternate lst).1 ++ (alternate lst).2 ≡ₚ lst.
Proof.
  induction lst as [|x lst IH]; simpl; [done|].
  by rewrite (Permutation_app_comm _ (alternate lst).1), IH.
Qed.

Lemma alternate_sublist {A} (lst : list A) :
  (alternate lst).1 `sublist_of` lst ∧ (alternate lst).2 `sublist_of` lst.
Proof.
  induction lst as [|x lst [IH1 IH2]]; simpl; [by split|].
  split; [by apply sublist_skip|by apply sublist_cons].
Qed.

Lemma pick_sublist (v : Z) (dl : list Image) (indices : list Z) :
  pick v dl indices `sublist_of` dl.
Proof.
  revert indices. induction dl as [|dp dl IH]; intros [|d ds]; simpl;
    try apply sublist_nil_l.
  destruct (d =? v)%Z; [apply sublist_skip|apply sublist_cons]; apply IH.
Qed.

(** The three lists that [split_datasets] makes, for a sample of the
    length of the buffer. *)
Lemma split_lists_pick (indices : list Z) (dl : list Image) (ratio : Q)
    (add_test : bool) :
  length indices = length dl → (0 <= ratio)%Q → (ratio <= 1)%Q →
  split_lists indices dl ratio add_test =
  Ok (pick 0 dl indices,
      if add_test then (alternate (pick 1 dl indices)).1 else pick 1 dl indices,
      if add_test then Some (alternate (pick 1 dl indices)).2 else None).
Proof.
  intros Hlen H0 H1. unfold split_lists.
  rewrite ratio_check, !select_pick by done. simpl.
  destruct add_test; [|done].
  destruct (filter_parity_imap 0 (pick 1 dl indices)) as [Heven Hodd].
  simpl in Heven, Hodd. unfold enumerate. by rewrite Heven, Hodd.
Qed.

(** X1: without [max_datapoints] the split builder raises [TypeError], and
    with a string that [int] rejects it raises [ValueError]; both happen
    before the split is looked up, so also for an unknown split name. *)
Theorem SplitDataFlow_build_max_datapoints_errors
    (int_of_str : string -> option Z) (train val : list Image)
    (test : option (list Image)) (kwargs : Kwargs) :
  (kwargs !! "max_datapoints" = None →
   build (SplitDataFlow int_of_str train val test) kwargs = Err TypeError) ∧
  (∀ s, kwargs !! "max_datapoints" = Some (VStr s) → int_of_str s = None →
   build (SplitDataFlow int_of_str train val test) kwargs = Err ValueError).
Proof.
  simpl. unfold SplitDataFlow_build. split.
  - by intros ->.
  - intros s -> Hs. simpl. by rewrite Hs.
Qed.

(** X2: after a split without a test split the name "test" is unknown to
    the builder and [build] raises [KeyError]; after a split with a test
    split it returns a stream of at most [max_datapoints] datapoints. *)
Theorem split_datasets_then_build_test (int_of_str : string -> option Z)
    (indices : list Z) (self : MergeDataset Image) (dl : list Image)
    (ratio : Q) (add_test : bool) (kwargs : Kwargs) (m : Z) :
  datapoint_list self = Some dl →
  binomial_sample (length dl) indices →
  (0 <= ratio)%Q → (ratio <= 1)%Q →
  kwargs !! "split" = Some (VStr "test") →
  int int_of_str (kwargs !! "max_datapoints") = Ok m →
  let self' := (split_datasets int_of_str indices self ratio add_test).2 in
  if add_test
  then ∃ df, build (_dataflow_builder self') kwargs = Ok df ∧
             (length (yields df) ≤ Z.to_nat m)%nat
  else build (_dataflow_builder self') kwargs = Err (KeyError (VStr "test")).
Proof.
  intros Hbuf [Hlen _] H0 H1 Hsplit Hint. unfold split_datasets.
  rewrite Hbuf, split_lists_pick by done.
  destruct add_test; simpl; unfold SplitDataFlow_build;
    rewrite Hint, Hsplit; simpl.
  - eexists. split; [reflexivity|]. simpl. rewrite length_take. lia.
  - reflexivity.
Qed.

(** X3: after streams have been assigned, [buffer_datasets] succeeds for
    any options and the buffer is a rearrangement of the datapoints of the
    assigned streams; the builders of the datasets are not used. *)
Theorem explicit_dataflows_then_buffer (draws : list nat)
    (self : MergeDataset Image) (dfs : list (DataFlow Image)) (kwargs : Kwargs) :
  (length (datasets self) ≤ length dfs)%nat →
  ∃ buffered self',
    buffer_datasets draws (explicit_dataflows self dfs).2 kwargs = (Ok tt, self') ∧
    datapoint_list self' = Some buffered ∧
    buffered ≡ₚ concat (map yields dfs).
Proof.
  intros Hlen. apply Nat.leb_le in Hlen.
  eexists _, _. unfold explicit_dataflows, buffer_datasets; simpl.
  rewrite Hlen; simpl.
  split; [reflexivity|]. split; [reflexivity|].
  unfold CacheData_get_cache. by rewrite shuffle_permutation, yields_ConcatData.
Qed.

(** X4: with a test split the three splits together are a rearrangement of
    the buffer: no datapoint is lost or repeated, and the sizes add up to
    the size of the buffer. *)
Theorem split_datasets_three_way (int_of_str : string -> option Z)
    (indices : list Z) (self : MergeDataset Image) (dl : list Image)
    (ratio : Q) :
  datapoint_list self = Some dl →
  binomial_sample (length dl) indices →
  (0 <= ratio)%Q → (ratio <= 1)%Q →
  ∃ train val test self',
    split_datasets int_of_str indices self ratio true = (Ok tt, self') ∧
    _dataflow_builder self' =
      set_categories (SplitDataFlow int_of_str train val (Some test))
        (MergeDataset_categories (datasets self)) ∧
    train ++ val ++ test ≡ₚ dl ∧
    (length train + length val + length test = length dl)%nat.
Proof.
  intros Hbuf [Hlen Hall] H0 H1.
  exists (pick 0 dl indices), (alternate (pick 1 dl indices)).1,
    (alternate (pick 1 dl indices)).2.
  eexists. unfold split_datasets. rewrite Hbuf, split_lists_pick by done.
  split; [reflexivity|]. split; [reflexivity|].
  assert (Hperm : pick 0 dl indices ++ (alternate (pick 1 dl indices)).1
                    ++ (alternate (pick 1 dl indices)).2 ≡ₚ dl)
    by (rewrite alternate_permutation; by apply pick_permutation).
  split; [done|].
  apply Permutation_length in Hperm. rewrite !length_app in Hperm. lia.
Qed.

(** X5: every split keeps the order of the buffer: train, val and test
    are sub-sequences of the buffered list. *)
Theorem split_datasets_keeps_order (int_of_str : string -> option Z)
    (indices : list Z) (self : MergeDataset Image) (dl : list Image)
    (ratio : Q) (add_test : bool) :
  datapoint_list self = Some dl →
  binomial_sample (length dl) indices →
  (0 <= ratio)%Q → (ratio <= 1)%Q →
  ∃ train val test self',
    split_datasets int_of_str indices self ratio add_test = (Ok tt, self') ∧
    _dataflow_builder self' =
      set_categories (SplitDataFlow int_of_str train val test)
        (MergeDataset_categories (datasets self)) ∧
    train `sublist_of` dl ∧ val `sublist_of` dl ∧
    (∀ lst, test = Some lst → lst `sublist_of` dl).
Proof.
  intros Hbuf [Hlen _] H0 H1.
  eexists _, _, _, _. unfold split_datasets.
  rewrite Hbuf, split_lists_pick by done.
  split; [reflexivity|]. split; [reflexivity|].
  split; [apply pick_sublist|].
  destruct (alternate_sublist (pick 1 dl indices)) as [Hval Htest].
  destruct add_test.
  - split; [by etrans; [|apply pick_sublist]|].
    intros lst [= <-]. by etrans; [|apply pick_sublist].
  - split; [apply pick_sublist|]. by intros lst.
Qed.

(** X6: [split_datasets] keeps the buffer, so the datasets can be split
    again: a second split that succeeds leaves the instance as if it had
    been the only one, whatever the first call did. *)
Theorem split_datasets_again (int_of_str : string -> option Z)
    (indices1 indices2 : list Z) (self : MergeDataset Image)
    (ratio1 ratio2 : Q) (add_test1 add_test2 : bool) :
  let self1 := (split_datasets int_of_str indices1 self ratio1 add_test1).2 in
  datapoint_list self1 = datapoint_list self ∧
  ((split_datasets int_of_str indices2 self1 ratio2 add_test2).1 = Ok tt →
   split_datasets int_of_str indices2 self1 ratio2 add_test2
   = split_datasets int_of_str indices2 self ratio2 add_test2).
Proof.
  simpl. unfold split_datasets.
  destruct (datapoint_list self) as [dl|] eqn:Hbuf; simpl.
  2: { split; [done|]. by rewrite Hbuf. }
  destruct (split_lists indices1 dl ratio1 add_test1) as [[[tr1 va1] te1]|e1];
    simpl.
  2: { split; [done|]. by rewrite Hbuf. }
  split; [done|].
  by destruct (split_lists indices2 dl ratio2 add_test2) as [[[tr2 va2] te2]|e2].
Qed.

(** X7: buffering again after a split reads the split builder: with no
    [split] option the new buffer is a rearrangement of the first
    [max_datapoints] datapoints of the train split, so the datapoints of
    the other splits are no longer buffered. *)
Theorem split_datasets_then_buffer (int_of_str : string -> option Z)
    (indices : list Z) (draws : list nat) (self : MergeDataset Image)
    (dl : list Image) (ratio : Q) (add_test : bool) (kwargs : Kwargs) (m : Z) :
  datapoint_list self = Some dl →
  binomial_sample (length dl) indices →
  (0 <= ratio)%Q → (ratio <= 1)%Q →
  kwargs !! "split" = None →
  int int_of_str (kwargs !! "max_datapoints") = Ok m →
  ∃ train val test self1 buffered self2,
    split_datasets int_of_str indices self ratio add_test = (Ok tt, self1) ∧
    _dataflow_builder self1 =
      set_categories (SplitDataFlow int_of_str train val test)
        (MergeDataset_categories (datasets self)) ∧
    buffer_datasets draws self1 kwargs = (Ok tt, self2) ∧
    datapoint_list self2 = Some buffered ∧
    buffered ≡ₚ take (Z.to_nat m) train ∧
    (length buffered ≤ length dl)%nat.
Proof.
  intros Hbuf [Hlen _] H0 H1 Hsplit Hint.
  pose proof (sublist_length _ _ (pick_sublist 0 dl indices)) as Htrain.
  destruct add_test; eexists _, _, _, _, _, _; unfold split_datasets;
    rewrite Hbuf, split_lists_pick by done;
    (split; [reflexivity|]; split; [reflexivity|]);
    unfold buffer_datasets; simpl; unfold SplitDataFlow_build;
    rewrite Hint, Hsplit; simpl; rewrite lookup_insert_eq; simpl;
    (split; [reflexivity|]; split; [reflexivity|];
     split; [apply shuffle_permutation|];
     unfold CacheData_get_cache; simpl;
     rewrite shuffle_permutation, length_take; lia).
Qed.

Lemma for_append_app {A B} (f : A -> result B) (xs ys : list A) :
  for_append f (xs ++ ys)
  = (xs' ← for_append f xs; ys' ← for_append f ys; Ok (xs' ++ ys')).
Proof.
  induction xs as [|x xs IH]; simpl.
  - by destruct (for_append f ys).
  - destruct (f x) as [y|e]; simpl; [|done]. rewrite IH.
    destruct (for_append f xs) as [xs'|e]; simpl; [|done].
    by destruct (for_append f ys).
Qed.

(** X8: in streaming mode the first builder that raises ends [build]: if
    the builders of the datasets before it return and it raises [e], then
    [build] of the merge raises [e], whatever the later builders do. *)
Theorem streaming_build_first_error (pre post : list (DatasetBase Image))
    (d : DatasetBase Image) (self : MergeDataset Image) (kwargs : Kwargs)
    (e : Exception) :
  MergeDataset_init (pre ++ d :: post) = Ok self →
  Forall (fun dataset => ∃ df, build (dataflow dataset) kwargs = Ok df) pre →
  build (dataflow d) kwargs = Err e →
  build (_dataflow_builder self) kwargs = Err e.
Proof.
  rewrite MergeDataset_init_Ok. intros [= <-] Hpre Hd. simpl.
  unfold MergeDataFlow_build. rewrite for_append_map, for_append_app.
  assert (Hok : ∃ dfs, for_append (fun x => build (dataflow x) kwargs) pre = Ok dfs).
  { induction Hpre as [|x pre [df Hx] _ [dfs IH]]; simpl; [by eexists|].
    rewrite Hx, IH. by eexists. }
  destruct Hok as [dfs ->]. simpl. by rewrite Hd.
Qed.

(** X9: whatever methods are called on a constructed [MergeDataset], with
    whatever arguments and whether they raise or not, the instance keeps
    its datasets and its name "merge", and its active builder carries the
    merged categories of the datasets. *)
Theorem run_calls_invariant (int_of_str : string -> option Z)
    (ds : list (DatasetBase Image)) (self : MergeDataset Image)
    (cs : list (Call Image)) :
  MergeDataset_init ds = Ok self →
  datasets (run_calls int_of_str self cs) = ds ∧
  name (_dataset_info (run_calls int_of_str self cs)) = "merge" ∧
  categories (_dataflow_builder (run_calls int_of_str self cs))
    = Some (MergeDataset_categories ds).
Proof.
  intros Hinit.
  assert (Hself : datasets self = ds ∧ name (_dataset_info self) = "merge" ∧
            categories (_dataflow_builder self) = Some (MergeDataset_categories ds))
    by (rewrite MergeDataset_init_Ok in Hinit; by injection Hinit as <-).
  clear Hinit. unfold run_calls. revert self Hself.
  induction cs as [|c cs IH]; intros self Hself; [done|].
  simpl. apply IH. destruct Hself as (Hds & Hname & Hcat).
  destruct c as [dfs|draws kwargs|indices ratio add_test]; simpl.
  - unfold explicit_dataflows; simpl.
    destruct (length (datasets self) <=? length dfs)%nat; simpl;
      by rewrite ?Hds.
  - unfold buffer_datasets. by destruct (build _ kwargs).
  - unfold split_datasets. destruct (datapoint_list self) as [dl|]; [|done].
    destruct (split_lists indices dl ratio add_test) as [[[tr va] te]|e];
      simpl; by rewrite ?Hds.
Qed.

Lemma expectation_pick_train (ratio : Q) (dl : list Image) :
  (expectation ratio (length dl) (fun ds => size_Q (pick 0 dl ds))
   == (1 - ratio) * size_Q dl)%Q.
Proof.
  induction dl as [|dp dl IH]; simpl expectation.
  - unfold size_Q. simpl. ring.
  - simpl pick.
    rewrite (expectation_ext ratio (length dl)
               (fun ds => size_Q (dp :: pick 0 dl ds))
               (fun ds => (1 + size_Q (pick 0 dl ds))%Q))
      by (intros; apply size_Q_cons).
    rewrite expectation_plus_const, IH, size_Q_cons. ring.
Qed.

(** X10: as the docstring of [split_datasets] says, [1 - ratio] of the
    buffer is assigned to the train split: over the draws the expected
    size of train is [(1 - ratio) * N]. *)
Theorem split_datasets_expected_train (dl : list Image) (ratio : Q) :
  (0 <= ratio)%Q → (ratio <= 1)%Q →
  (expectation ratio (length dl) (train_size dl ratio)
   == (1 - ratio) * size_Q dl)%Q.
Proof.
  intros H0 H1. rewrite <- expectation_pick_train. apply expectation_ext.
  intros ds Hds _. unfold train_size.
  by rewrite (split_lists_pick ds dl ratio false).
Qed.

(** X11: a [MergeDataset] can be merged again, and the stream of the
    merge of a merge is the stream of the flat merge: for the merge of
    [MergeDataset(ds1)] with [rest] and the merge of [ds1 ++ rest], in
    streaming mode, [build] raises the same exception or returns streams
    that yield the same datapoints in the same order. *)
Theorem nested_merge_build (ds1 rest : list (DatasetBase Image))
    (inner outer flat : MergeDataset Image) (kwargs : Kwargs) :
  MergeDataset_init ds1 = Ok inner →
  MergeDataset_init (MergeDataset_as_dataset inner :: rest) = Ok outer →
  MergeDataset_init (ds1 ++ rest) = Ok flat →
  match build (_dataflow_builder outer) kwargs,
        build (_dataflow_builder flat) kwargs with
  | Ok df_outer, Ok df_flat => yields df_outer = yields df_flat
  | Err e_outer, Err e_flat => e_outer = e_flat
  | _, _ => False
  end.
Proof.
  rewrite !MergeDataset_init_Ok. intros [= <-] [= <-] [= <-]. simpl.
  unfold MergeDataFlow_build. rewrite ?for_append_map, for_append_app.
  simpl. unfold MergeDataFlow_build. rewrite ?for_append_map.
  destruct (for_append _ ds1) as [dfs1|e1]; simpl; [|done].
  destruct (for_append _ rest) as [dfs2|e2]; simpl; [|done].
  change (yields (ConcatData dfs1) ++ yields (ConcatData dfs2)
          = yields (ConcatData (dfs1 ++ dfs2))).
  by rewrite !yields_ConcatData, map_app, concat_app.
Qed.

(** X12: an empty buffer is split without an error into empty splits, and
    every stream the split builder then returns is empty. *)
Theorem split_datasets_empty_buffer (int_of_str : string -> option Z)
    (self : MergeDataset Image) (ratio : Q) (add_test : bool) :
  datapoint_list self = Some [] →
  (0 <= ratio)%Q → (ratio <= 1)%Q →
  ∃ self',
    split_datasets int_of_str [] self ratio add_test = (Ok tt, self') ∧
    _dataflow_builder self' =
      set_categories
        (SplitDataFlow int_of_str [] [] (if add_test then Some [] else None))
        (MergeDataset_categories (datasets self)) ∧
    ∀ kwargs df, build (_dataflow_builder self') kwargs = Ok df → yields df = [].
Proof.
  intros Hbuf H0 H1. eexists. unfold split_datasets.
  rewrite Hbuf, split_lists_pick by done. simpl.
  split; [reflexivity|]. split; [by destruct add_test|].
  intros kwargs df. simpl. unfold SplitDataFlow_build.
  destruct (int int_of_str (kwargs !! "max_datapoints")) as [m|e]; simpl; [|done].
  destruct (split_cache_getitem _ _) as [lst|e] eqn:Hget; simpl; [|done].
  intros [= <-]. simpl.
  assert (Hlst : lst = []); [|by rewrite Hlst, take_nil].
  destruct add_test; apply split_cache_getitem_Ok in Hget;
    destruct Hget as [[_ ->]|[[_ ->]|[_ Htest]]]; simplify_eq; done.
Qed.

(** X13: the last assignment of streams wins: a call of
    [explicit_dataflows] with enough streams leaves the instance as if no
    earlier call had been made, also after an earlier call that failed. *)
Theorem explicit_dataflows_last_wins (self : MergeDataset Image)
    (dfs1 dfs2 : list (DataFlow Image)) :
  (length (datasets self) ≤ length dfs2)%nat →
  explicit_dataflows (explicit_dataflows self dfs1).2 dfs2
  = explicit_dataflows self dfs2.
Proof.
  intros Hlen. apply Nat.leb_le in Hlen. unfold explicit_dataflows; simpl.
  destruct (length (datasets self) <=? length dfs1)%nat; simpl;
    by rewrite Hlen.
Qed.

(** X14: from the datasets to the splits no datapoint is lost or
    repeated: construct the merge, buffer it in streaming mode and split it
    without a test split; when the builders of the datasets return, train
    followed by val is a rearrangement of the datapoints of their streams. *)
Theorem pipeline_conserves_datapoints (int_of_str : string -> option Z)
    (ds : list (DatasetBase Image)) (dfs : list (DataFlow Image))
    (kwargs : Kwargs) (draws : list nat) (indices : list Z) (ratio : Q) :
  Forall2 (fun dataset df => build (dataflow dataset) kwargs = Ok df) ds dfs →
  binomial_sample (length (concat (map yields dfs))) indices →
  (0 <= ratio)%Q → (ratio <= 1)%Q →
  ∃ self0 self1 self2 train val,
    MergeDataset_init ds = Ok self0 ∧
    buffer_datasets draws self0 kwargs = (Ok tt, self1) ∧
    split_datasets int_of_str indices self1 ratio false = (Ok tt, self2) ∧
    _dataflow_builder self2 =
      set_categories (SplitDataFlow int_of_str train val None)
        (MergeDataset_categories ds) ∧
    train ++ val ≡ₚ concat (map yields dfs).
Proof.
  intros Hbuilds [Hlen Hall] H0 H1.
  apply for_append_Forall2 in Hbuilds.
  set (buffered := CacheData_get_cache draws (ConcatData dfs)).
  assert (Hperm : buffered ≡ₚ concat (map yields dfs)).
  { unfold buffered, CacheData_get_cache.
    by rewrite shuffle_permutation, yields_ConcatData. }
  assert (Hlen' : length indices = length buffered)
    by (by rewrite Hlen, Hperm).
  eexists _, _, _, (pick 0 buffered indices), (pick 1 buffered indices).
  split; [apply MergeDataset_init_Ok|].
  unfold buffer_datasets; simpl. unfold MergeDataFlow_build.
  rewrite for_append_map, Hbuilds; simpl.
  split; [reflexivity|].
  unfold split_datasets; simpl. fold buffered.
  rewrite split_lists_pick by done.
  split; [reflexivity|]. split; [reflexivity|].
  rewrite <- Hperm. by apply pick_permutation.
Qed.

(** X15: assigning streams does not touch the buffer: a split made after
    [explicit_dataflows] has the same outcome and gives the same split
    builder as without that call, so it divides the datapoints buffered
    before and not those of the assigned streams. *)
Theorem explicit_dataflows_then_split (int_of_str : string -> option Z)
    (indices : list Z) (self : MergeDataset Image) (dfs : list (DataFlow Image))
    (ratio : Q) (add_test : bool) :
  let assigned := (explicit_dataflows self dfs).2 in
  datapoint_list assigned = datapoint_list self ∧
  (split_datasets int_of_str indices assigned ratio add_test).1
  = (split_datasets int_of_str indices self ratio add_test).1 ∧
  ((split_datasets int_of_str indices self ratio add_test).1 = Ok tt →
   _dataflow_builder (split_datasets int_of_str indices assigned ratio add_test).2
   = _dataflow_builder (split_datasets int_of_str indices self ratio add_test).2).
Proof.
  simpl. unfold explicit_dataflows, split_datasets; simpl.
  destruct (length (datasets self) <=? length dfs)%nat; simpl;
    (destruct (datapoint_list self) as [dl|]; simpl; [|done]);
    by destruct (split_lists indices dl ratio add_test) as [[[tr va] te]|e].
Qed.

End further_properties.

(** ** The further properties on the concrete instances *)

Lemma half_ge_0 : (0 <= 1 # 2)%Q.
Proof. unfold Qle; simpl; lia. Defined.

Lemma half_le_1 : (1 # 2 <= 1)%Q.
Proof. unfold Qle; simpl; lia. Defined.

Lemma sample_010 : binomial_sample (length [3; 1; 2]%nat) [0; 1; 0].
Proof. split; [reflexivity|repeat (constructor; [auto|])]; constructor. Defined.

Lemma sample_111 : binomial_sample (length [3; 1; 2]%nat) [1; 1; 1].
Proof. split; [reflexivity|repeat (constructor; [auto|])]; constructor. Defined.

Lemma SplitDataFlow_build_max_datapoints_errors_witness :
  ({[ "split" := VStr "nosuch" ]} : Kwargs) !! "max_datapoints" = None ∧
  build (SplitDataFlow no_int_of_str [1; 2]%nat [3]%nat None)
    {[ "split" := VStr "nosuch" ]} = Err TypeError.
Proof.
  split; [reflexivity|].
  apply (SplitDataFlow_build_max_datapoints_errors no_int_of_str). reflexivity.
Defined.

Lemma split_datasets_then_build_test_witness :
  datapoint_list buffered_dataset = Some [3; 1; 2]%nat ∧
  binomial_sample 3 [0; 1; 0] ∧ (0 <= 1 # 2)%Q ∧ (1 # 2 <= 1)%Q ∧
  build (_dataflow_builder
           (split_datasets no_int_of_str [0; 1; 0] buffered_dataset (1 # 2) false).2)
    {[ "split" := VStr "test"; "max_datapoints" := VInt 1 ]}
  = Err (KeyError (VStr "test")).
Proof.
  split; [reflexivity|]. split; [exact sample_010|].
  split; [exact half_ge_0|]. split; [exact half_le_1|].
  exact (split_datasets_then_build_test no_int_of_str [0; 1; 0] buffered_dataset
           [3; 1; 2]%nat (1 # 2) false
           {[ "split" := VStr "test"; "max_datapoints" := VInt 1 ]} 1
           eq_refl sample_010 half_ge_0 half_le_1 eq_refl eq_refl).
Defined.

Lemma explicit_dataflows_then_buffer_witness :
  (length (datasets union_dataset)
   ≤ length [DataFromList [7]%nat; DataFromList [8; 9]%nat])%nat ∧
  ∃ buffered self',
    buffer_datasets [0; 0; 0]%nat
      (explicit_dataflows union_dataset
         [DataFromList [7]%nat; DataFromList [8; 9]%nat]).2
      {[ "split" := VStr "val" ]} = (Ok tt, self') ∧
    datapoint_list self' = Some buffered ∧
    buffered ≡ₚ [7; 8; 9]%nat.
Proof.
  assert (Hle : (length (datasets union_dataset)
                 ≤ length [DataFromList [7]%nat; DataFromList [8; 9]%nat])%nat)
    by (simpl; lia).
  split; [exact Hle|].
  exact (explicit_dataflows_then_buffer [0; 0; 0]%nat union_dataset
           [DataFromList [7]%nat; DataFromList [8; 9]%nat]
           {[ "split" := VStr "val" ]} Hle).
Defined.

Lemma split_datasets_three_way_witness :
  datapoint_list buffered_dataset = Some [3; 1; 2]%nat ∧
  binomial_sample 3 [1; 1; 1] ∧ (0 <= 1 # 2)%Q ∧ (1 # 2 <= 1)%Q ∧
  ∃ train val test self',
    split_datasets no_int_of_str [1; 1; 1] buffered_dataset (1 # 2) true
      = (Ok tt, self') ∧
    train ++ val ++ test ≡ₚ [3; 1; 2]%nat ∧
    (length train + length val + length test = 3)%nat.
Proof.
  split; [reflexivity|]. split; [exact sample_111|].
  split; [exact half_ge_0|]. split; [exact half_le_1|].
  destruct (split_datasets_three_way no_int_of_str [1; 1; 1] buffered_dataset
              [3; 1; 2]%nat (1 # 2) eq_refl sample_111 half_ge_0 half_le_1)
    as (train & val & test & self' & Hrun & _ & Hperm & Hsize).
  exists train, val, test, self'. by repeat split.
Defined.

Lemma split_datasets_keeps_order_witness :
  datapoint_list buffered_dataset = Some [3; 1; 2]%nat ∧
  binomial_sample 3 [0; 1; 0] ∧ (0 <= 1 # 2)%Q ∧ (1 # 2 <= 1)%Q ∧
  ∃ train val test self',
    split_datasets no_int_of_str [0; 1; 0] buffered_dataset (1 # 2) true
      = (Ok tt, self') ∧
    train `sublist_of` [3; 1; 2]%nat ∧ val `sublist_of` [3; 1; 2]%nat ∧
    (∀ lst, test = Some lst → lst `sublist_of` [3; 1; 2]%nat).
Proof.
  split; [reflexivity|]. split; [exact sample_010|].
  split; [exact half_ge_0|]. split; [exact half_le_1|].
  destruct (split_datasets_keeps_order no_int_of_str [0; 1; 0] buffered_dataset
              [3; 1; 2]%nat (1 # 2) true eq_refl sample_010 half_ge_0 half_le_1)
    as (train & val & test & self' & Hrun & _ & Htrain & Hval & Htest).
  exists train, val, test, self'. by repeat split.
Defined.

Lemma split_datasets_again_witness :
  (split_datasets no_int_of_str [1; 1; 1]
     (split_datasets no_int_of_str [0; 1; 0] buffered_dataset (1 # 2) true).2
     (1 # 10) false).1 = Ok tt ∧
  split_datasets no_int_of_str [1; 1; 1]
    (split_datasets no_int_of_str [0; 1; 0] buffered_dataset (1 # 2) true).2
    (1 # 10) false
  = split_datasets no_int_of_str [1; 1; 1] buffered_dataset (1 # 10) false.
Proof.
  assert (Hok : (split_datasets no_int_of_str [1; 1; 1]
                   (split_datasets no_int_of_str [0; 1; 0] buffered_dataset
                      (1 # 2) true).2 (1 # 10) false).1 = Ok tt)
    by reflexivity.
  split; [exact Hok|].
  exact (proj2 (split_datasets_again no_int_of_str [0; 1; 0] [1; 1; 1]
                  buffered_dataset (1 # 2) (1 # 10) true false) Hok).
Defined.

Lemma split_datasets_then_buffer_witness :
  datapoint_list buffered_dataset = Some [3; 1; 2]%nat ∧
  binomial_sample 3 [0; 1; 0] ∧ (0 <= 1 # 2)%Q ∧ (1 # 2 <= 1)%Q ∧
  ({[ "max_datapoints" := VInt 1 ]} : Kwargs) !! "split" = None ∧
  int no_int_of_str (({[ "max_datapoints" := VInt 1 ]} : Kwargs)
                       !! "max_datapoints") = Ok 1 ∧
  ∃ self1 buffered self2,
    split_datasets no_int_of_str [0; 1; 0] buffered_dataset (1 # 2) true
      = (Ok tt, self1) ∧
    buffer_datasets [0]%nat self1 {[ "max_datapoints" := VInt 1 ]}
      = (Ok tt, self2) ∧
    datapoint_list self2 = Some buffered ∧ (length buffered ≤ 3)%nat.
Proof.
  split; [reflexivity|]. split; [exact sample_010|].
  split; [exact half_ge_0|]. split; [exact half_le_1|].
  assert (Hkey : ({[ "max_datapoints" := VInt 1 ]} : Kwargs) !! "split" = None)
    by reflexivity.
  assert (Hint : int no_int_of_str
            (({[ "max_datapoints" := VInt 1 ]} : Kwargs) !! "max_datapoints")
            = Ok 1) by reflexivity.
  split; [exact Hkey|]. split; [exact Hint|].
  destruct (split_datasets_then_buffer no_int_of_str [0; 1; 0] [0]%nat
              buffered_dataset [3; 1; 2]%nat (1 # 2) true
              {[ "max_datapoints" := VInt 1 ]} 1
              eq_refl sample_010 half_ge_0 half_le_1 Hkey Hint)
    as (train & val & test & self1 & buffered & self2
        & Hsplit & _ & Hbuffer & Hlist & _ & Hsize).
  exists self1, buffered, self2. by repeat split.
Defined.

Lemma streaming_build_first_error_witness :
  ∃ self,
    MergeDataset_init ([dataset_1] ++ broken_dataset :: [dataset_2]) = Ok self ∧
    Forall (fun dataset => ∃ df, build (dataflow dataset) ∅ = Ok df) [dataset_1] ∧
    build (dataflow broken_dataset) ∅ = Err ValueError ∧
    build (_dataflow_builder self) ∅ = Err ValueError.
Proof.
  assert (Hpre : Forall (fun dataset => ∃ df, build (dataflow dataset) ∅ = Ok df)
                   [dataset_1])
    by (constructor; [by eexists|constructor]).
  eexists. split; [reflexivity|]. split; [exact Hpre|]. split; [reflexivity|].
  exact (streaming_build_first_error [dataset_1] [dataset_2] broken_dataset _ ∅
           ValueError eq_refl Hpre eq_refl).
Defined.

Lemma run_calls_invariant_witness :
  MergeDataset_init [dataset_1; dataset_2] = Ok union_dataset ∧
  datasets
    (run_calls no_int_of_str union_dataset
       [call_explicit_dataflows [DataFromList [9]%nat];
        call_buffer_datasets [0; 0; 0]%nat ∅;
        call_split_datasets [0; 1; 1] (1 # 2) true;
        call_split_datasets [0; 1] (1 # 2) true])
  = [dataset_1; dataset_2].
Proof.
  split; [reflexivity|].
  exact (proj1 (run_calls_invariant no_int_of_str [dataset_1; dataset_2]
                  union_dataset _ eq_refl)).
Defined.

Lemma split_datasets_expected_train_witness :
  (0 <= 1 # 2)%Q ∧ (1 # 2 <= 1)%Q ∧
  (expectation (1 # 2) 3 (train_size [3; 1; 2]%nat (1 # 2))
   == (1 - (1 # 2)) * size_Q [3; 1; 2]%nat)%Q.
Proof.
  split; [exact half_ge_0|]. split; [exact half_le_1|].
  exact (split_datasets_expected_train [3; 1; 2]%nat (1 # 2) half_ge_0 half_le_1).
Defined.

Lemma nested_merge_build_witness :
  ∃ inner outer flat df_outer df_flat,
    MergeDataset_init [dataset_1; dataset_2] = Ok inner ∧
    MergeDataset_init (MergeDataset_as_dataset inner :: [dataset_3]) = Ok outer ∧
    MergeDataset_init ([dataset_1; dataset_2] ++ [dataset_3]) = Ok flat ∧
    build (_dataflow_builder outer) ∅ = Ok df_outer ∧
    build (_dataflow_builder flat) ∅ = Ok df_flat ∧
    yields df_outer = yields df_flat.
Proof.
  eexists _, _, _, _, _.
  split; [reflexivity|]. split; [reflexivity|]. split; [reflexivity|].
  split; [reflexivity|]. split; [reflexivity|].
  exact (nested_merge_build [dataset_1; dataset_2] [dataset_3] _ _ _ ∅
           eq_refl eq_refl eq_refl).
Defined.

Lemma split_datasets_empty_buffer_witness :
  datapoint_list empty_buffered_dataset = Some [] ∧
  (0 <= 1 # 2)%Q ∧ (1 # 2 <= 1)%Q ∧
  ∃ self',
    split_datasets no_int_of_str [] empty_buffered_dataset (1 # 2) true
      = (Ok tt, self') ∧
    ∀ kwargs df, build (_dataflow_builder self') kwargs = Ok df → yields df = [].
Proof.
  split; [reflexivity|]. split; [exact half_ge_0|]. split; [exact half_le_1|].
  destruct (split_datasets_empty_buffer no_int_of_str empty_buffered_dataset
              (1 # 2) true eq_refl half_ge_0 half_le_1)
    as (self' & Hrun & _ & Hempty).
  exists self'. by split.
Defined.

Lemma explicit_dataflows_last_wins_witness :
  (length (datasets union_dataset)
   ≤ length [DataFromList [7]%nat; DataFromList [8]%nat])%nat ∧
  explicit_dataflows (explicit_dataflows union_dataset [DataFromList [9]%nat]).2
    [DataFromList [7]%nat; DataFromList [8]%nat]
  = explicit_dataflows union_dataset [DataFromList [7]%nat; DataFromList [8]%nat].
Proof.
  assert (Hle : (length (datasets union_dataset)
                 ≤ length [DataFromList [7]%nat; DataFromList [8]%nat])%nat)
    by (simpl; lia).
  split; [exact Hle|].
  exact (explicit_dataflows_last_wins union_dataset _ _ Hle).
Defined.

Lemma pipeline_conserves_datapoints_witness :
  Forall2 (fun dataset df => build (dataflow dataset) ∅ = Ok df)
    [dataset_1; dataset_2] [DataFromList [1; 2]%nat; DataFromList [3]%nat] ∧
  binomial_sample 3 [0; 1; 0] ∧ (0 <= 1 # 2)%Q ∧ (1 # 2 <= 1)%Q ∧
  ∃ self2 train val,
    _dataflow_builder self2 =
      set_categories (SplitDataFlow no_int_of_str train val None)
        (MergeDataset_categories [dataset_1; dataset_2]) ∧
    train ++ val ≡ₚ [1; 2; 3]%nat.
Proof.
  assert (Hbuilds : Forall2 (fun dataset df => build (dataflow dataset) ∅ = Ok df)
            [dataset_1; dataset_2]
            [DataFromList [1; 2]%nat; DataFromList [3]%nat])
    by (repeat constructor).
  split; [exact Hbuilds|]. split; [exact sample_010|].
  split; [exact half_ge_0|]. split; [exact half_le_1|].
  destruct (pipeline_conserves_datapoints no_int_of_str [dataset_1; dataset_2]
              [DataFromList [1; 2]%nat; DataFromList [3]%nat] ∅ [1; 1; 0]%nat
              [0; 1; 0] (1 # 2) Hbuilds sample_010 half_ge_0 half_le_1)
    as (self0 & self1 & self2 & train & val & _ & _ & _ & Hbuilder & Hperm).
  exists self2, train, val. by split.
Defined.

Lemma explicit_dataflows_then_split_witness :
  (split_datasets no_int_of_str [0; 1; 0] buffered_dataset (1 # 2) true).1 = Ok tt ∧
  _dataflow_builder
    (split_datasets no_int_of_str [0; 1; 0]
       (explicit_dataflows buffered_dataset
          [DataFromList [7]%nat; DataFromList [8]%nat]).2 (1 # 2) true).2
  = _dataflow_builder
      (split_datasets no_int_of_str [0; 1; 0] buffered_dataset (1 # 2) true).2.
Proof.
  assert (Hok : (split_datasets no_int_of_str [0; 1; 0] buffered_dataset
                   (1 # 2) true).1 = Ok tt) by reflexivity.
  split; [exact Hok|].
  destruct (explicit_dataflows_then_split no_int_of_str [0; 1; 0] buffered_dataset
              [DataFromList [7]%nat; DataFromList [8]%nat] (1 # 2) true)
    as (_ & _ & Hbuilder).
  exact (Hbuilder Hok).
Defined.
